(** * VectorMath: the openvox vector-math operation set

    A shallow embedding of [Engine/include/math/VectorMath.hpp].  The header
    is a library of function templates over a component type [T] and the three
    vector containers [Vector2<T>], [Vector3<T>], [Vector4<T>].  A C++
    template parameter becomes a Rocq type parameter, the operators the
    templates use on [T] become the fields of a type class, and every overload
    becomes one definition named after the function and its arity. *)

From Stdlib Require Import ZArith List Bool String Lia.
From Stdlib Require Import Reals Lra.
From Stdlib Require Import Floats.
From Stdlib Require Ascii DecimalString DecimalPos DecimalZ.
Import ListNotations.

(** ** Component types *)

(** The arithmetic operators of the component type [T] that the header
    applies to components ([*], [+], [-]) or that the vector containers apply
    componentwise ([/], unary [-]). *)
Class Scalar (T : Type) : Type := {
  add : T -> T -> T;
  sub : T -> T -> T;
  mul : T -> T -> T;
  div : T -> T -> T;
  neg : T -> T
}.

(** [openvox::math::sqrt], a scalar collaborator of the header. *)
Class Sqrt (T : Type) : Type := sqrt : T -> T.

(** [openvox::math::fastInverseSqrt], used by the [OPENVOX_MATH_FAST] build. *)
Class FastInverseSqrt (T : Type) : Type := fastInverseSqrt : T -> T.

(** [std::numeric_limits<T>::is_iec559], the constant the static assertions
    of [dot] and [cross] test. *)
Class NumericLimits (T : Type) : Type := is_iec559 : bool.

(** The comparison operators of [T]: [==], [<] and [<=]. *)
Class ScalarOrder (T : Type) : Type := {
  eqb : T -> T -> bool;
  ltb : T -> T -> bool;
  leb : T -> T -> bool
}.

Declare Scope scalar_scope.
Delimit Scope scalar_scope with S.
Infix "+" := add : scalar_scope.
Infix "-" := sub : scalar_scope.
Infix "*" := mul : scalar_scope.
Infix "/" := div : scalar_scope.
Infix "==" := eqb (at level 70, no associativity) : scalar_scope.
Infix "<" := ltb : scalar_scope.
Infix "<=" := leb : scalar_scope.

(** ** Vector containers *)

(** The containers live outside the header; it uses their named components,
    their constructors from N scalars, and the scalar broadcast operators
    [v * s] and [v / s]. *)
Record Vector2 (T : Type) : Type := mkVector2 { x2 : T; y2 : T }.
Record Vector3 (T : Type) : Type := mkVector3 { x3 : T; y3 : T; z3 : T }.
Record Vector4 (T : Type) : Type := mkVector4 { x4 : T; y4 : T; z4 : T; w4 : T }.

Arguments mkVector2 {T} _ _.
Arguments mkVector3 {T} _ _ _.
Arguments mkVector4 {T} _ _ _ _.
Arguments x2 {T} _.
Arguments y2 {T} _.
Arguments x3 {T} _.
Arguments y3 {T} _.
Arguments z3 {T} _.
Arguments x4 {T} _.
Arguments y4 {T} _.
Arguments z4 {T} _.
Arguments w4 {T} _.

Section Containers.
Context {T : Type}.

(** The components of a vector in index order. *)
Definition components2 (v : Vector2 T) : list T := [x2 v; y2 v].
Definition components3 (v : Vector3 T) : list T := [x3 v; y3 v; z3 v].
Definition components4 (v : Vector4 T) : list T := [x4 v; y4 v; z4 v; w4 v].

Context `{Scalar T}.

(** Modelled from the spec: the containers' scalar broadcast multiply and
    divide (section 6: "elementwise arithmetic operators and scalar
    broadcast multiply/divide"; section 4.1: accurate normalization is "one
    exact square root plus N divisions"), and their componentwise unary
    minus. *)
Definition vmul2 (v : Vector2 T) (s : T) : Vector2 T :=
  mkVector2 (x2 v * s)%S (y2 v * s)%S.
Definition vmul3 (v : Vector3 T) (s : T) : Vector3 T :=
  mkVector3 (x3 v * s)%S (y3 v * s)%S (z3 v * s)%S.
Definition vmul4 (v : Vector4 T) (s : T) : Vector4 T :=
  mkVector4 (x4 v * s)%S (y4 v * s)%S (z4 v * s)%S (w4 v * s)%S.

Definition vdiv2 (v : Vector2 T) (s : T) : Vector2 T :=
  mkVector2 (x2 v / s)%S (y2 v / s)%S.
Definition vdiv3 (v : Vector3 T) (s : T) : Vector3 T :=
  mkVector3 (x3 v / s)%S (y3 v / s)%S (z3 v / s)%S.
Definition vdiv4 (v : Vector4 T) (s : T) : Vector4 T :=
  mkVector4 (x4 v / s)%S (y4 v / s)%S (z4 v / s)%S (w4 v / s)%S.

Definition vneg3 (v : Vector3 T) : Vector3 T :=
  mkVector3 (neg (x3 v)) (neg (y3 v)) (neg (z3 v)).

(** Modelled from the spec: the containers' [==], true when every pair of
    components compares equal with the [==] of [T]. *)
Definition veqb3 `{ScalarOrder T} (v1 v2 : Vector3 T) : bool :=
  (x3 v1 == x3 v2)%S && (y3 v1 == y3 v2)%S && (z3 v1 == z3 v2)%S.
End Containers.

(** ** Algebraic operations (VectorMath.hpp, lines 16-95) *)

Section Algebraic.
Context {T : Type} `{Scalar T}.

Definition dot2 (v1 v2 : Vector2 T) : T :=
  (x2 v1 * x2 v2 + y2 v1 * y2 v2)%S.
Definition dot3 (v1 v2 : Vector3 T) : T :=
  (x3 v1 * x3 v2 + y3 v1 * y3 v2 + z3 v1 * z3 v2)%S.
Definition dot4 (v1 v2 : Vector4 T) : T :=
  (x4 v1 * x4 v2 + y4 v1 * y4 v2 + z4 v1 * z4 v2 + w4 v1 * w4 v2)%S.

Definition lengthSquared2 (v : Vector2 T) : T :=
  (x2 v * x2 v + y2 v * y2 v)%S.
Definition lengthSquared3 (v : Vector3 T) : T :=
  (x3 v * x3 v + y3 v * y3 v + z3 v * z3 v)%S.
Definition lengthSquared4 (v : Vector4 T) : T :=
  (x4 v * x4 v + y4 v * y4 v + z4 v * z4 v + w4 v * w4 v)%S.

Definition cross (v1 v2 : Vector3 T) : Vector3 T :=
  mkVector3 (y3 v1 * z3 v2 - z3 v1 * y3 v2)%S
            (z3 v1 * x3 v2 - x3 v1 * z3 v2)%S
            (x3 v1 * y3 v2 - y3 v1 * x3 v2)%S.

Section WithSqrt.
Context `{Sqrt T}.

Definition length2 (v : Vector2 T) : T :=
  sqrt (x2 v * x2 v + y2 v * y2 v)%S.
Definition length3 (v : Vector3 T) : T :=
  sqrt (x3 v * x3 v + y3 v * y3 v + z3 v * z3 v)%S.
Definition length4 (v : Vector4 T) : T :=
  sqrt (x4 v * x4 v + y4 v * y4 v + z4 v * z4 v + w4 v * w4 v)%S.

(** [normalize] as compiled without [OPENVOX_MATH_FAST] (the default). *)
Definition normalize2 (v : Vector2 T) : Vector2 T := vdiv2 v (length2 v).
Definition normalize3 (v : Vector3 T) : Vector3 T := vdiv3 v (length3 v).
Definition normalize4 (v : Vector4 T) : Vector4 T := vdiv4 v (length4 v).
End WithSqrt.

Section WithFastInverseSqrt.
Context `{FastInverseSqrt T}.

(** [normalize] as compiled with [OPENVOX_MATH_FAST] defined. *)
Definition normalize2_fast (v : Vector2 T) : Vector2 T :=
  vmul2 v (fastInverseSqrt (lengthSquared2 v)).
Definition normalize3_fast (v : Vector3 T) : Vector3 T :=
  vmul3 v (fastInverseSqrt (lengthSquared3 v)).
Definition normalize4_fast (v : Vector4 T) : Vector4 T :=
  vmul4 v (fastInverseSqrt (lengthSquared4 v)).
End WithFastInverseSqrt.
End Algebraic.

(** ** Elementwise function application (VectorMath.hpp, lines 97-132) *)

(** The body of the [VEC_FCALL(name, func)] macro, one overload per arity. *)
Section VecFcall.
Context {T : Type} (func : T -> T).

Definition VEC_FCALL2 (v : Vector2 T) : Vector2 T :=
  mkVector2 (func (x2 v)) (func (y2 v)).
Definition VEC_FCALL3 (v : Vector3 T) : Vector3 T :=
  mkVector3 (func (x3 v)) (func (y3 v)) (func (z3 v)).
Definition VEC_FCALL4 (v : Vector4 T) : Vector4 T :=
  mkVector4 (func (x4 v)) (func (y4 v)) (func (z4 v)) (func (w4 v)).
End VecFcall.

(** The twenty names the macro is expanded at, in the order of the header. *)
Inductive fcall_name : Type :=
  | f_sin | f_cos | f_tan | f_acos | f_asin | f_atan
  | f_abs | f_floor | f_ceil | f_trunc | f_round | f_fract | f_sign
  | f_radians | f_degrees | f_sqrt | f_exp | f_exp2 | f_log | f_log2.

Definition all_fcall_names : list fcall_name :=
  [f_sin; f_cos; f_tan; f_acos; f_asin; f_atan;
   f_abs; f_floor; f_ceil; f_trunc; f_round; f_fract; f_sign;
   f_radians; f_degrees; f_sqrt; f_exp; f_exp2; f_log; f_log2].

(** The scalar functions the expansions name: six of [std::] and fourteen of
    [openvox::math::], all collaborators of the header. *)
Class ScalarFunctions (T : Type) : Type := {
  std_sin : T -> T;
  std_cos : T -> T;
  std_tan : T -> T;
  std_acos : T -> T;
  std_asin : T -> T;
  std_atan : T -> T;
  math_abs : T -> T;
  math_floor : T -> T;
  math_ceil : T -> T;
  math_trunc : T -> T;
  math_round : T -> T;
  math_fract : T -> T;
  math_sign : T -> T;
  math_radians : T -> T;
  math_degrees : T -> T;
  math_sqrt : T -> T;
  math_exp : T -> T;
  math_exp2 : T -> T;
  math_log : T -> T;
  math_log2 : T -> T
}.

Section Elementwise.
Context {T : Type} `{ScalarFunctions T}.

(** The second argument of each [VEC_FCALL] line. *)
Definition scalar_func (name : fcall_name) : T -> T :=
  match name with
  | f_sin => std_sin
  | f_cos => std_cos
  | f_tan => std_tan
  | f_acos => std_acos
  | f_asin => std_asin
  | f_atan => std_atan
  | f_abs => math_abs
  | f_floor => math_floor
  | f_ceil => math_ceil
  | f_trunc => math_trunc
  | f_round => math_round
  | f_fract => math_fract
  | f_sign => math_sign
  | f_radians => math_radians
  | f_degrees => math_degrees
  | f_sqrt => math_sqrt
  | f_exp => math_exp
  | f_exp2 => math_exp2
  | f_log => math_log
  | f_log2 => math_log2
  end.

(** The three overloads each line generates. *)
Definition fcall2 (name : fcall_name) : Vector2 T -> Vector2 T :=
  VEC_FCALL2 (scalar_func name).
Definition fcall3 (name : fcall_name) : Vector3 T -> Vector3 T :=
  VEC_FCALL3 (scalar_func name).
Definition fcall4 (name : fcall_name) : Vector4 T -> Vector4 T :=
  VEC_FCALL4 (scalar_func name).
End Elementwise.

(** A function on vectors that applies one scalar function to every
    component of its argument, index by index. *)
Definition applies_to_each2 {T : Type}
  (g : Vector2 T -> Vector2 T) (func : T -> T) : Prop :=
  forall v : Vector2 T, components2 (g v) = map func (components2 v).
Definition applies_to_each3 {T : Type}
  (g : Vector3 T -> Vector3 T) (func : T -> T) : Prop :=
  forall v : Vector3 T, components3 (g v) = map func (components3 v).
Definition applies_to_each4 {T : Type}
  (g : Vector4 T -> Vector4 T) (func : T -> T) : Prop :=
  forall v : Vector4 T, components4 (g v) = map func (components4 v).

(** ** Binary and ternary combinators (VectorMath.hpp, lines 134-184) *)

(** [openvox::math::mod], [min], [max] and [clamp] on scalars, collaborators
    of the header. *)
Class ScalarMod (T : Type) : Type := scalar_mod : T -> T -> T.
Class ScalarMin (T : Type) : Type := scalar_min : T -> T -> T.
Class ScalarMax (T : Type) : Type := scalar_max : T -> T -> T.
Class ScalarClamp (T : Type) : Type := scalar_clamp : T -> T -> T -> T.

Section Combinators.
Context {T : Type}.
Context `{ScalarMod T} `{ScalarMin T} `{ScalarMax T} `{ScalarClamp T}.

Definition mod2 (v : Vector2 T) (a : T) : Vector2 T :=
  mkVector2 (scalar_mod (x2 v) a) (scalar_mod (y2 v) a).
Definition mod3 (v : Vector3 T) (a : T) : Vector3 T :=
  mkVector3 (scalar_mod (x3 v) a) (scalar_mod (y3 v) a) (scalar_mod (z3 v) a).
Definition mod4 (v : Vector4 T) (a : T) : Vector4 T :=
  mkVector4 (scalar_mod (x4 v) a) (scalar_mod (y4 v) a)
            (scalar_mod (z4 v) a) (scalar_mod (w4 v) a).

Definition min2 (v1 v2 : Vector2 T) : Vector2 T :=
  mkVector2 (scalar_min (x2 v1) (x2 v2)) (scalar_min (y2 v1) (y2 v2)).
Definition min3 (v1 v2 : Vector3 T) : Vector3 T :=
  mkVector3 (scalar_min (x3 v1) (x3 v2)) (scalar_min (y3 v1) (y3 v2))
            (scalar_min (z3 v1) (z3 v2)).
Definition min4 (v1 v2 : Vector4 T) : Vector4 T :=
  mkVector4 (scalar_min (x4 v1) (x4 v2)) (scalar_min (y4 v1) (y4 v2))
            (scalar_min (z4 v1) (z4 v2)) (scalar_min (w4 v1) (w4 v2)).

Definition max2 (v1 v2 : Vector2 T) : Vector2 T :=
  mkVector2 (scalar_max (x2 v1) (x2 v2)) (scalar_max (y2 v1) (y2 v2)).
Definition max3 (v1 v2 : Vector3 T) : Vector3 T :=
  mkVector3 (scalar_max (x3 v1) (x3 v2)) (scalar_max (y3 v1) (y3 v2))
            (scalar_max (z3 v1) (z3 v2)).
Definition max4 (v1 v2 : Vector4 T) : Vector4 T :=
  mkVector4 (scalar_max (x4 v1) (x4 v2)) (scalar_max (y4 v1) (y4 v2))
            (scalar_max (z4 v1) (z4 v2)) (scalar_max (w4 v1) (w4 v2)).

Definition clamp2 (v : Vector2 T) (minVal maxVal : T) : Vector2 T :=
  mkVector2 (scalar_clamp (x2 v) minVal maxVal)
            (scalar_clamp (y2 v) minVal maxVal).
Definition clamp3 (v : Vector3 T) (minVal maxVal : T) : Vector3 T :=
  mkVector3 (scalar_clamp (x3 v) minVal maxVal)
            (scalar_clamp (y3 v) minVal maxVal)
            (scalar_clamp (z3 v) minVal maxVal).
Definition clamp4 (v : Vector4 T) (minVal maxVal : T) : Vector4 T :=
  mkVector4 (scalar_clamp (x4 v) minVal maxVal)
            (scalar_clamp (y4 v) minVal maxVal)
            (scalar_clamp (z4 v) minVal maxVal)
            (scalar_clamp (w4 v) minVal maxVal).
End Combinators.

(** Modelled from the spec: the scalar [openvox::math::min], [max] and
    [clamp], which are not part of the header.  Section 6 asks that each
    "match standard single-scalar semantics": [min] and [max] select with
    [<], and [clamp(x, lo, hi)] is [min(max(x, lo), hi)]. *)
Section SpecScalarCombinators.
Context {T : Type} `{ScalarOrder T}.

Definition spec_min (a b : T) : T := if (b < a)%S then b else a.
Definition spec_max (a b : T) : T := if (a < b)%S then b else a.
Definition spec_clamp (x lo hi : T) : T := spec_min (spec_max x lo) hi.
End SpecScalarCombinators.

(** ** Template instantiation *)

(** What the compiler makes of instantiating a function template at a
    component type: the function, or a diagnostic and no program. *)
Inductive build (A : Type) : Type :=
  | Rejected (diagnostic : string)
  | Built (body : A).
Arguments Rejected {A} diagnostic.
Arguments Built {A} body.

(** [static_assert(cond, msg)] at the head of a template body. *)
Definition static_assert {A : Type} (cond : bool) (msg : string) (body : A)
  : build A :=
  if cond then Built body else Rejected msg.

(** A template that calls another one is built only if the callee is: the
    callee's diagnostic is the caller's. *)
Definition bind {A B : Type} (callee : build A) (caller : A -> build B)
  : build B :=
  match callee with
  | Rejected diagnostic => Rejected diagnostic
  | Built a => caller a
  end.

Definition requires {A B : Type} (callee : build A) (caller : build B)
  : build B :=
  bind callee (fun _ => caller).

Definition is_rejected {A : Type} (b : build A) : bool :=
  match b with Rejected _ => true | Built _ => false end.

Section Instantiation.
Context (T : Type) `{Scalar T} `{NumericLimits T}.

(** What instantiating the scalar collaborators [openvox::math::sqrt] and
    [openvox::math::fastInverseSqrt] at [T] yields. *)
Variable sqrt_at_T : build (Sqrt T).
Variable fastInverseSqrt_at_T : build (FastInverseSqrt T).

Definition instantiate_dot2 : build (Vector2 T -> Vector2 T -> T) :=
  static_assert is_iec559 "dot only accepts floating-point inputs." dot2.
Definition instantiate_dot3 : build (Vector3 T -> Vector3 T -> T) :=
  static_assert is_iec559 "dot only accepts floating-point inputs." dot3.
Definition instantiate_dot4 : build (Vector4 T -> Vector4 T -> T) :=
  static_assert is_iec559 "dot only accepts floating-point inputs." dot4.

Definition instantiate_cross : build (Vector3 T -> Vector3 T -> Vector3 T) :=
  static_assert is_iec559 "cross only accepts floating-point inputs." cross.

Definition instantiate_lengthSquared2 : build (Vector2 T -> T) :=
  Built lengthSquared2.
Definition instantiate_lengthSquared3 : build (Vector3 T -> T) :=
  Built lengthSquared3.
Definition instantiate_lengthSquared4 : build (Vector4 T -> T) :=
  Built lengthSquared4.

Definition instantiate_length2 : build (Vector2 T -> T) :=
  bind sqrt_at_T (fun Q => Built (@length2 T _ Q)).
Definition instantiate_length3 : build (Vector3 T -> T) :=
  bind sqrt_at_T (fun Q => Built (@length3 T _ Q)).
Definition instantiate_length4 : build (Vector4 T -> T) :=
  bind sqrt_at_T (fun Q => Built (@length4 T _ Q)).

Definition instantiate_normalize2 : build (Vector2 T -> Vector2 T) :=
  bind sqrt_at_T (fun Q =>
    requires instantiate_length2 (Built (@normalize2 T _ Q))).
Definition instantiate_normalize3 : build (Vector3 T -> Vector3 T) :=
  bind sqrt_at_T (fun Q =>
    requires instantiate_length3 (Built (@normalize3 T _ Q))).
Definition instantiate_normalize4 : build (Vector4 T -> Vector4 T) :=
  bind sqrt_at_T (fun Q =>
    requires instantiate_length4 (Built (@normalize4 T _ Q))).

Definition instantiate_normalize2_fast : build (Vector2 T -> Vector2 T) :=
  bind fastInverseSqrt_at_T (fun F =>
    requires instantiate_lengthSquared2 (Built (@normalize2_fast T _ F))).
Definition instantiate_normalize3_fast : build (Vector3 T -> Vector3 T) :=
  bind fastInverseSqrt_at_T (fun F =>
    requires instantiate_lengthSquared3 (Built (@normalize3_fast T _ F))).
Definition instantiate_normalize4_fast : build (Vector4 T -> Vector4 T) :=
  bind fastInverseSqrt_at_T (fun F =>
    requires instantiate_lengthSquared4 (Built (@normalize4_fast T _ F))).
End Instantiation.

Arguments instantiate_dot2 T {_ _}.
Arguments instantiate_dot3 T {_ _}.
Arguments instantiate_dot4 T {_ _}.
Arguments instantiate_cross T {_ _}.
Arguments instantiate_lengthSquared2 T {_}.
Arguments instantiate_lengthSquared3 T {_}.
Arguments instantiate_lengthSquared4 T {_}.
Arguments instantiate_length2 T {_} sqrt_at_T.
Arguments instantiate_length3 T {_} sqrt_at_T.
Arguments instantiate_length4 T {_} sqrt_at_T.
Arguments instantiate_normalize2 T {_} sqrt_at_T.
Arguments instantiate_normalize3 T {_} sqrt_at_T.
Arguments instantiate_normalize4 T {_} sqrt_at_T.
Arguments instantiate_normalize2_fast T {_} fastInverseSqrt_at_T.
Arguments instantiate_normalize3_fast T {_} fastInverseSqrt_at_T.
Arguments instantiate_normalize4_fast T {_} fastInverseSqrt_at_T.

Section SpecScalarInstantiation.
Context (T : Type) `{NumericLimits T}.

(** Modelled from the spec: what instantiating [openvox::math::sqrt] and
    [openvox::math::fastInverseSqrt] at [T] yields; neither function is in
    the header.  Section 4.1 has [length] require a floating-point [T],
    "inherited from the square-root and dot requirement", and has both
    modes of [normalize] require one; section 7 has a call at another
    component type "caught at compile time".  So each scalar function is
    rejected at a [T] that is not IEC 559 and built at one that is.  The
    spec does not give the diagnostics; they follow those of [dot]. *)
Definition spec_sqrt_at_T (Q : Sqrt T) : build (Sqrt T) :=
  static_assert is_iec559 "sqrt only accepts floating-point inputs." Q.
Definition spec_fastInverseSqrt_at_T (F : FastInverseSqrt T)
  : build (FastInverseSqrt T) :=
  static_assert is_iec559
    "fastInverseSqrt only accepts floating-point inputs." F.
End SpecScalarInstantiation.

Arguments spec_sqrt_at_T T {_} Q.
Arguments spec_fastInverseSqrt_at_T T {_} F.

(** ** Three component types *)

(** Exact arithmetic: the real numbers. *)
Module Exact.
#[export] Instance R_Scalar : Scalar R :=
  {| add := Rplus; sub := Rminus; mul := Rmult; div := Rdiv; neg := Ropp |}.
#[export] Instance R_Sqrt : Sqrt R := R_sqrt.sqrt.
End Exact.

(** IEEE-754 binary64, the C++ [double]: the kernel's primitive floats.
    Every C++ operator is one correctly rounded binary64 operation (no fused
    multiply-add, no wider intermediate precision). *)
Module Binary64.
#[export] Instance float_Scalar : Scalar float :=
  {| add := PrimFloat.add; sub := PrimFloat.sub; mul := PrimFloat.mul;
     div := PrimFloat.div; neg := PrimFloat.opp |}.
#[export] Instance float_Order : ScalarOrder float :=
  {| eqb := PrimFloat.eqb; ltb := PrimFloat.ltb; leb := PrimFloat.leb |}.
#[export] Instance float_Sqrt : Sqrt float := PrimFloat.sqrt.
#[export] Instance float_NumericLimits : NumericLimits float := true.

#[export] Instance float_Min : ScalarMin float := spec_min.
#[export] Instance float_Max : ScalarMax float := spec_max.
#[export] Instance float_Clamp : ScalarClamp float := spec_clamp.
End Binary64.

(** An integer component type, the C++ [unsigned int] as a [Z] in
    [0, 2^32): its comparison operators, and the scalar combinators of the
    spec on it. *)
Module UInt32.
#[export] Instance uint_Order : ScalarOrder Z :=
  {| eqb := Z.eqb; ltb := Z.ltb; leb := Z.leb |}.

#[export] Instance uint_Min : ScalarMin Z := spec_min.
#[export] Instance uint_Max : ScalarMax Z := spec_max.
#[export] Instance uint_Clamp : ScalarClamp Z := spec_clamp.
End UInt32.

(** ** The spec's wording of the dot product *)

Section SumOfProducts.
Context {T : Type} `{Scalar T}.

(** The sum of the pairwise products of two component lists, taken index
    by index and added from the left, as the spec words [dot]. *)
Fixpoint add_products (acc : T) (l1 l2 : list T) : T :=
  match l1, l2 with
  | a :: l1', b :: l2' => add_products (acc + a * b)%S l1' l2'
  | _, _ => acc
  end.

Definition sum_of_products (l1 l2 : list T) : option T :=
  match l1, l2 with
  | a :: l1', b :: l2' => Some (add_products (a * b)%S l1' l2')
  | _, _ => None
  end.

End SumOfProducts.

(** ** The assertion facility (VGDAssert.hpp) *)

Module VGDAssert.

(** What has been written to an output stream, oldest character first. *)
Definition ostream : Type := string.

(** [std::ostream << int] in the default format: base 10, a minus sign
    before a negative number. *)
Definition print_int (n : Z) : string := DecimalString.NilZero.string_of_int (Z.to_int n).

(** The values the facility streams: text and [int]s. *)
Class Printable (T : Type) : Type := print : T -> string.
#[export] Instance string_Printable : Printable string := fun s => s.
#[export] Instance int_Printable : Printable Z := print_int.

(** [os << value] on an output stream. *)
Definition put {T : Type} `{Printable T} (os : ostream) (value : T)
  : ostream :=
  String.append os (print value).

(** [std::endl]: the newline character (and a flush). *)
Definition endl : string := String (Ascii.ascii_of_nat 10) EmptyString.

(** [strcmp(a, b) == 0] on C strings; a C string is the characters before
    its terminating NUL. *)
Definition strcmp_is_0 (a b : string) : bool := String.eqb a b.

(** [std::string::empty]. *)
Definition empty (s : string) : bool :=
  match s with
  | EmptyString => true
  | String _ _ => false
  end.

Record AssertionFailureException : Type := mkAssertionFailureException {
  expression : string;
  file : string;
  line : Z;
  message : string;
  report : string
}.

Definition logError (self : AssertionFailureException) (cerr : ostream)
  : ostream :=
  put (put cerr (report self)) endl.

(** [std::string::c_str] read as a C string: the characters before the
    first NUL. *)
Fixpoint c_str (s : string) : string :=
  match s with
  | EmptyString => EmptyString
  | String c s' =>
      if Ascii.eqb c Ascii.zero then EmptyString else String c (c_str s')
  end.

Definition what (self : AssertionFailureException) : string :=
  c_str (report self).

(** The constructor: formats the report into a local string stream, stores
    it, and logs it to [std::cerr]. *)
Definition construct (expression file : string) (line : Z) (message : string)
  (cerr : ostream) : AssertionFailureException * ostream :=
  let outputStream : ostream := EmptyString in
  let outputStream :=
    if negb (empty message)
    then put (put outputStream message) ": "%string
    else outputStream in
  let outputStream :=
    if strcmp_is_0 expression "false" || strcmp_is_0 expression "0"
    then put outputStream "Unreachable code assertion"%string
    else put (put (put outputStream "Assertion '"%string) expression)
             "'"%string in
  let outputStream :=
    put (put (put (put outputStream " failed in file '"%string) file)
             "' line "%string) line in
  let self :=
    mkAssertionFailureException expression file line message outputStream in
  (self, logError self cerr).

(** [StreamFormatter]: a string stream that converts to [std::string]. *)
Record StreamFormatter : Type := mkStreamFormatter { m_stream : ostream }.

Definition StreamFormatter_new : StreamFormatter :=
  mkStreamFormatter EmptyString.

Definition StreamFormatter_shl {T : Type} `{Printable T}
  (self : StreamFormatter) (value : T) : StreamFormatter :=
  mkStreamFormatter (put (m_stream self) value).

Definition StreamFormatter_to_string (self : StreamFormatter) : string :=
  m_stream self.

(** A computation that may write to [std::cerr]: of its effects only what
    it writes there is recorded. *)
Definition M (A : Type) : Type := ostream -> A * ostream.

(** How a statement ends. *)
Inductive outcome : Type :=
  | Returned
  | Thrown (e : AssertionFailureException).

(** The [vgd_assert(EXPRESSION, MESSAGE)] macro at a source position, in a
    build with or without [NDEBUG].  [EXPRESSION] and the operands of
    [MESSAGE] are evaluated only where the expansion mentions them. *)
Definition vgd_assert (NDEBUG : bool) (EXPRESSION : M bool)
  (EXPRESSION_text FILE : string) (LINE : Z) (MESSAGE : M (list string))
  : M outcome :=
  fun cerr =>
    if NDEBUG then (Returned, cerr)
    else
      let (holds, cerr) := EXPRESSION cerr in
      if negb holds then
        let (operands, cerr) := MESSAGE cerr in
        let formatter :=
          fold_left StreamFormatter_shl operands StreamFormatter_new in
        let (e, cerr) :=
          construct EXPRESSION_text FILE LINE
                    (StreamFormatter_to_string formatter) cerr in
        (Thrown e, cerr)
      else (Returned, cerr).

End VGDAssert.

Import Exact Binary64 UInt32.

(** ** Auxiliary definitions *)

(** Arithmetic on the reals with the header's operators rounded. *)
Definition rounding_Scalar (fadd fmul fdiv : R -> R -> R) : Scalar R :=
  {| add := fadd; sub := Rminus; mul := fmul; div := fdiv; neg := Ropp |}.

(** The standard model of floating-point arithmetic with unit roundoff [u]. *)
Definition standard_model (u : R) (fadd fmul fdiv : R -> R -> R)
  (fsqrt : R -> R) : Prop :=
  (forall a b : R, Rabs (fadd a b - (a + b)) <= u * Rabs (a + b))%R /\
  (forall a b : R, Rabs (fmul a b - a * b) <= u * Rabs (a * b))%R /\
  (forall a b : R,
      b <> 0%R -> Rabs (fdiv a b - a / b) <= u * Rabs (a / b))%R /\
  (forall a : R,
      0 <= a -> Rabs (fsqrt a - R_sqrt.sqrt a) <= u * R_sqrt.sqrt a)%R.

(** [b] is [A] up to [k] roundings of unit roundoff [u]. *)
Definition near (u : R) (k : nat) (A b : R) : Prop :=
  (A * (1 - u) ^ k <= b <= A * (/ (1 - u)) ^ k)%R.

(** Operations that err by the whole unit roundoff [u] at every step:
    sums, products and square roots too large, quotients too small. *)
Definition biased_add (u a b : R) : R := ((a + b) * (1 + u))%R.
Definition biased_mul (u a b : R) : R := (a * b * (1 + u))%R.
Definition biased_div (u a b : R) : R := (a / b * (1 - u))%R.
Definition biased_sqrt (u a : R) : R := (R_sqrt.sqrt a * (1 + u))%R.


(** Equality of floating-point values up to the sign of zero. *)
Definition same_value (x y : spec_float) : Prop :=
  x = y \/ exists s s', x = S754_zero s /\ y = S754_zero s'.

(** A vector of [double]s some component of which is a NaN. *)
Definition has_nan3 (v : Vector3 float) : bool :=
  is_nan (x3 v) || is_nan (y3 v) || is_nan (z3 v).

(** A floating-point value that is a NaN or has its sign bit clear. *)
Definition sign_nonneg (x : spec_float) : bool :=
  match x with
  | S754_zero s => negb s
  | S754_infinity s => negb s
  | S754_nan => true
  | S754_finite s _ _ => negb s
  end.

(** [lo <= r <= hi] with the [<=] of the component type. *)
Definition within {T : Type} `{ScalarOrder T} (lo hi r : T) : bool :=
  (lo <= r)%S && (r <= hi)%S.

(** Unfolds the vector operations and the real instances down to the
    operations of [R]. *)
Ltac unfold_exact :=
  unfold normalize2_fast, normalize3_fast, normalize4_fast,
    normalize2, normalize3, normalize4, vmul2, vmul3, vmul4,
    vdiv2, vdiv3, vdiv4, vneg3, length2, length3, length4,
    lengthSquared2, lengthSquared3, lengthSquared4,
    dot2, dot3, dot4, cross in *;
  cbn in *; unfold sqrt, R_Sqrt in *.

(** * Properties *)

(** ** Length and squared length *)

(** C1: at each arity, [length] returns the square root of what
    [lengthSquared] returns on the same vector, whatever the component
    type and its square root are (at [double] also when that value is a
    NaN); at [double] the length of (3, 4) is 5. *)
Theorem length_is_sqrt_lengthSquared :
  (forall (T : Type) (S : Scalar T) (Q : Sqrt T),
      (forall v : Vector2 T, length2 v = sqrt (lengthSquared2 v)) /\
      (forall v : Vector3 T, length3 v = sqrt (lengthSquared3 v)) /\
      (forall v : Vector4 T, length4 v = sqrt (lengthSquared4 v))) /\
  length2 (mkVector2 3%float 4%float) = 5%float.
Proof.
  split.
  - intros T S Q. repeat split.
  - vm_compute. reflexivity.
Qed.

(** ** Dot product *)

(** C2: at every component type, [dot] is the sum, over the N component
    indices, of the products of the two components at that index, added
    from the left; at [double] the dot product of the first two unit
    vectors is 0. *)
Theorem dot_is_sum_of_products :
  (forall (T : Type) (S : Scalar T),
      (forall v1 v2 : Vector2 T,
          dot2 v1 v2 = (x2 v1 * x2 v2 + y2 v1 * y2 v2)%S /\
          Some (dot2 v1 v2)
          = sum_of_products (components2 v1) (components2 v2)) /\
      (forall v1 v2 : Vector3 T,
          dot3 v1 v2 = (x3 v1 * x3 v2 + y3 v1 * y3 v2 + z3 v1 * z3 v2)%S /\
          Some (dot3 v1 v2)
          = sum_of_products (components3 v1) (components3 v2)) /\
      (forall v1 v2 : Vector4 T,
          dot4 v1 v2 =
            (x4 v1 * x4 v2 + y4 v1 * y4 v2 + z4 v1 * z4 v2 + w4 v1 * w4 v2)%S /\
          Some (dot4 v1 v2)
          = sum_of_products (components4 v1) (components4 v2))) /\
  dot3 (mkVector3 1%float 0%float 0%float) (mkVector3 0%float 1%float 0%float)
  = 0%float.
Proof.
  split.
  - intros T S. repeat split.
  - vm_compute. reflexivity.
Qed.

(** ** Cross product: the formula *)

(** C4: [cross] returns the vector of the three 2x2 determinants, at every
    component type; at [double] and over the reals the cross product of the
    first two unit vectors is the third. *)
Theorem cross_formula :
  (forall (T : Type) (S : Scalar T) (v1 v2 : Vector3 T),
      cross v1 v2 =
        mkVector3 (y3 v1 * z3 v2 - z3 v1 * y3 v2)%S
                  (z3 v1 * x3 v2 - x3 v1 * z3 v2)%S
                  (x3 v1 * y3 v2 - y3 v1 * x3 v2)%S) /\
  cross (mkVector3 1%float 0%float 0%float) (mkVector3 0%float 1%float 0%float)
    = mkVector3 0%float 0%float 1%float /\
  cross (mkVector3 1%R 0%R 0%R) (mkVector3 0%R 1%R 0%R)
    = mkVector3 0%R 0%R 1%R.
Proof.
  split; [ | split ].
  - intros T S v1 v2. reflexivity.
  - vm_compute. reflexivity.
  - unfold cross; cbn. f_equal; ring.
Qed.

(** ** Elementwise functions *)

Section ElementwiseProperties.
Context {T : Type} `{ScalarFunctions T}.

Lemma nth_error_components_map :
  forall (f : T -> T) (l : list T) (i : nat),
    nth_error (map f l) i = option_map f (nth_error l i).
Proof.
  intros f l; induction l as [ | a l IH ]; intros [ | i ]; cbn; auto.
Qed.

(** C7: the twenty generated functions are those of the header's twenty
    [VEC_FCALL] lines, and each, at each arity, applies the scalar function
    its line names ([std::sin] for [sin], ..., [openvox::math::log2] for
    [log2]) to every component on its own: the result's components are
    that scalar function mapped over the argument's, so the component at
    index [i] is the scalar function of the argument's component at [i] and
    of nothing else. *)
Theorem fcall_is_componentwise :
  (forall name : fcall_name, In name all_fcall_names) /\
  List.length all_fcall_names = 20%nat /\
  (applies_to_each2 (fcall2 f_sin) std_sin /\
   applies_to_each2 (fcall2 f_cos) std_cos /\
   applies_to_each2 (fcall2 f_tan) std_tan /\
   applies_to_each2 (fcall2 f_acos) std_acos /\
   applies_to_each2 (fcall2 f_asin) std_asin /\
   applies_to_each2 (fcall2 f_atan) std_atan /\
   applies_to_each2 (fcall2 f_abs) math_abs /\
   applies_to_each2 (fcall2 f_floor) math_floor /\
   applies_to_each2 (fcall2 f_ceil) math_ceil /\
   applies_to_each2 (fcall2 f_trunc) math_trunc /\
   applies_to_each2 (fcall2 f_round) math_round /\
   applies_to_each2 (fcall2 f_fract) math_fract /\
   applies_to_each2 (fcall2 f_sign) math_sign /\
   applies_to_each2 (fcall2 f_radians) math_radians /\
   applies_to_each2 (fcall2 f_degrees) math_degrees /\
   applies_to_each2 (fcall2 f_sqrt) math_sqrt /\
   applies_to_each2 (fcall2 f_exp) math_exp /\
   applies_to_each2 (fcall2 f_exp2) math_exp2 /\
   applies_to_each2 (fcall2 f_log) math_log /\
   applies_to_each2 (fcall2 f_log2) math_log2) /\
  (applies_to_each3 (fcall3 f_sin) std_sin /\
   applies_to_each3 (fcall3 f_cos) std_cos /\
   applies_to_each3 (fcall3 f_tan) std_tan /\
   applies_to_each3 (fcall3 f_acos) std_acos /\
   applies_to_each3 (fcall3 f_asin) std_asin /\
   applies_to_each3 (fcall3 f_atan) std_atan /\
   applies_to_each3 (fcall3 f_abs) math_abs /\
   applies_to_each3 (fcall3 f_floor) math_floor /\
   applies_to_each3 (fcall3 f_ceil) math_ceil /\
   applies_to_each3 (fcall3 f_trunc) math_trunc /\
   applies_to_each3 (fcall3 f_round) math_round /\
   applies_to_each3 (fcall3 f_fract) math_fract /\
   applies_to_each3 (fcall3 f_sign) math_sign /\
   applies_to_each3 (fcall3 f_radians) math_radians /\
   applies_to_each3 (fcall3 f_degrees) math_degrees /\
   applies_to_each3 (fcall3 f_sqrt) math_sqrt /\
   applies_to_each3 (fcall3 f_exp) math_exp /\
   applies_to_each3 (fcall3 f_exp2) math_exp2 /\
   applies_to_each3 (fcall3 f_log) math_log /\
   applies_to_each3 (fcall3 f_log2) math_log2) /\
  (applies_to_each4 (fcall4 f_sin) std_sin /\
   applies_to_each4 (fcall4 f_cos) std_cos /\
   applies_to_each4 (fcall4 f_tan) std_tan /\
   applies_to_each4 (fcall4 f_acos) std_acos /\
   applies_to_each4 (fcall4 f_asin) std_asin /\
   applies_to_each4 (fcall4 f_atan) std_atan /\
   applies_to_each4 (fcall4 f_abs) math_abs /\
   applies_to_each4 (fcall4 f_floor) math_floor /\
   applies_to_each4 (fcall4 f_ceil) math_ceil /\
   applies_to_each4 (fcall4 f_trunc) math_trunc /\
   applies_to_each4 (fcall4 f_round) math_round /\
   applies_to_each4 (fcall4 f_fract) math_fract /\
   applies_to_each4 (fcall4 f_sign) math_sign /\
   applies_to_each4 (fcall4 f_radians) math_radians /\
   applies_to_each4 (fcall4 f_degrees) math_degrees /\
   applies_to_each4 (fcall4 f_sqrt) math_sqrt /\
   applies_to_each4 (fcall4 f_exp) math_exp /\
   applies_to_each4 (fcall4 f_exp2) math_exp2 /\
   applies_to_each4 (fcall4 f_log) math_log /\
   applies_to_each4 (fcall4 f_log2) math_log2) /\
  (forall name : fcall_name,
      (forall (v : Vector2 T) (i : nat),
          nth_error (components2 (fcall2 name v)) i =
            option_map (scalar_func name) (nth_error (components2 v) i)) /\
      (forall (v : Vector3 T) (i : nat),
          nth_error (components3 (fcall3 name v)) i =
            option_map (scalar_func name) (nth_error (components3 v) i)) /\
      (forall (v : Vector4 T) (i : nat),
          nth_error (components4 (fcall4 name v)) i =
            option_map (scalar_func name) (nth_error (components4 v) i))).
Proof.
  split; [ | split; [ | split; [ | split; [ | split ] ] ] ].
  - intros name; destruct name; cbn; tauto.
  - reflexivity.
  - repeat split.
  - repeat split.
  - repeat split.
  - intros name.
    assert (E2 : forall v : Vector2 T,
               components2 (fcall2 name v)
               = map (scalar_func name) (components2 v)) by reflexivity.
    assert (E3 : forall v : Vector3 T,
               components3 (fcall3 name v)
               = map (scalar_func name) (components3 v)) by reflexivity.
    assert (E4 : forall v : Vector4 T,
               components4 (fcall4 name v)
               = map (scalar_func name) (components4 v)) by reflexivity.
    split; [ | split ]; intros v i.
    + rewrite E2. apply nth_error_components_map.
    + rewrite E3. apply nth_error_components_map.
    + rewrite E4. apply nth_error_components_map.
Qed.
End ElementwiseProperties.

(** ** Static assertions *)

(** Of the header's own static assertions: [dot] and [cross] are rejected
    exactly at the component types that are not IEC 559; [length] and
    [normalize] (in either build) carry no assertion of their own and are
    rejected exactly when the scalar square root (or fast inverse square
    root) they call is. *)
Lemma length_and_normalize_inherit_rejection :
  forall (T : Type) (S : Scalar T) (N : NumericLimits T)
         (sqrt_at_T : build (Sqrt T))
         (fastInverseSqrt_at_T : build (FastInverseSqrt T)),
    (is_rejected (instantiate_dot2 T) = negb is_iec559 /\
     is_rejected (instantiate_dot3 T) = negb is_iec559 /\
     is_rejected (instantiate_dot4 T) = negb is_iec559 /\
     is_rejected (instantiate_cross T) = negb is_iec559) /\
    (is_rejected (instantiate_length2 T sqrt_at_T) = is_rejected sqrt_at_T /\
     is_rejected (instantiate_length3 T sqrt_at_T) = is_rejected sqrt_at_T /\
     is_rejected (instantiate_length4 T sqrt_at_T) = is_rejected sqrt_at_T) /\
    (is_rejected (instantiate_normalize2 T sqrt_at_T)
     = is_rejected sqrt_at_T /\
     is_rejected (instantiate_normalize3 T sqrt_at_T)
     = is_rejected sqrt_at_T /\
     is_rejected (instantiate_normalize4 T sqrt_at_T)
     = is_rejected sqrt_at_T) /\
    (is_rejected (instantiate_normalize2_fast T fastInverseSqrt_at_T)
     = is_rejected fastInverseSqrt_at_T /\
     is_rejected (instantiate_normalize3_fast T fastInverseSqrt_at_T)
     = is_rejected fastInverseSqrt_at_T /\
     is_rejected (instantiate_normalize4_fast T fastInverseSqrt_at_T)
     = is_rejected fastInverseSqrt_at_T) /\
    (forall Q : Sqrt T,
        instantiate_length2 T (Built Q) = Built length2 /\
        instantiate_length3 T (Built Q) = Built length3 /\
        instantiate_length4 T (Built Q) = Built length4 /\
        instantiate_normalize2 T (Built Q) = Built normalize2 /\
        instantiate_normalize3 T (Built Q) = Built normalize3 /\
        instantiate_normalize4 T (Built Q) = Built normalize4).
Proof.
  intros T S N sqrt_at_T fastInverseSqrt_at_T.
  split; [ | split; [ | split; [ | split ] ] ].
  - unfold instantiate_dot2, instantiate_dot3, instantiate_dot4,
      instantiate_cross, static_assert.
    destruct is_iec559; repeat split.
  - destruct sqrt_at_T; repeat split.
  - destruct sqrt_at_T; repeat split.
  - destruct fastInverseSqrt_at_T; repeat split.
  - intros Q. repeat split.
Qed.


(** ** Exact arithmetic *)

Section ExactArithmetic.
Open Scope R_scope.

Lemma square_pos : forall a : R, a <> 0 -> 0 < a * a.
Proof.
  intros a Ha. destruct (Rtotal_order a 0) as [Hlt | [Heq | Hgt]]; nra.
Qed.

Lemma lengthSquared2_pos :
  forall v : Vector2 R, v <> mkVector2 0 0 -> 0 < lengthSquared2 v.
Proof.
  intros [a b] Hv. unfold lengthSquared2; cbn.
  destruct (Req_dec a 0) as [Ha | Ha]; destruct (Req_dec b 0) as [Hb | Hb];
    subst; try (exfalso; apply Hv; reflexivity);
    repeat match goal with
           | Hc : ?c <> 0 |- _ => apply square_pos in Hc
           end; nra.
Qed.

Lemma lengthSquared3_pos :
  forall v : Vector3 R, v <> mkVector3 0 0 0 -> 0 < lengthSquared3 v.
Proof.
  intros [a b c] Hv. unfold lengthSquared3; cbn.
  destruct (Req_dec a 0) as [Ha | Ha]; destruct (Req_dec b 0) as [Hb | Hb];
    destruct (Req_dec c 0) as [Hc | Hc];
    subst; try (exfalso; apply Hv; reflexivity);
    repeat match goal with
           | Hd : ?d <> 0 |- _ => apply square_pos in Hd
           end; nra.
Qed.

Lemma lengthSquared4_pos :
  forall v : Vector4 R, v <> mkVector4 0 0 0 0 -> 0 < lengthSquared4 v.
Proof.
  intros [a b c d] Hv. unfold lengthSquared4; cbn.
  destruct (Req_dec a 0) as [Ha | Ha]; destruct (Req_dec b 0) as [Hb | Hb];
    destruct (Req_dec c 0) as [Hc | Hc]; destruct (Req_dec d 0) as [Hd | Hd];
    subst; try (exfalso; apply Hv; reflexivity);
    repeat match goal with
           | He : ?e <> 0 |- _ => apply square_pos in He
           end; nra.
Qed.

(** Dividing a positive number by the square of its square root leaves a
    number whose square root is 1. *)
Lemma sqrt_of_ratio_is_one :
  forall s q : R,
    0 < s -> q = s / (R_sqrt.sqrt s * R_sqrt.sqrt s) -> R_sqrt.sqrt q = 1.
Proof.
  intros s q Hs ->. rewrite sqrt_sqrt by lra.
  unfold Rdiv. rewrite Rinv_r by lra. apply sqrt_1.
Qed.

Lemma sqrt_pos_neq0 : forall s : R, 0 < s -> R_sqrt.sqrt s <> 0.
Proof.
  intros s Hs. pose proof (sqrt_lt_R0 s Hs). lra.
Qed.

(** C10: over the reals the cross product is orthogonal to both of its
    arguments. *)
Theorem cross_is_orthogonal_exact :
  forall v1 v2 : Vector3 R,
    dot3 (cross v1 v2) v1 = 0 /\ dot3 (cross v1 v2) v2 = 0.
Proof.
  intros [a1 b1 c1] [a2 b2 c2]. unfold dot3, cross; cbn. split; ring.
Qed.

(** C9: when the fast inverse square root is exactly [1 / sqrt x], the
    [OPENVOX_MATH_FAST] build of [normalize] and the default build return
    the same vector on every vector of nonzero length, at each arity. *)
Theorem normalize_fast_agrees_with_accurate_exact :
  forall F : FastInverseSqrt R,
    (forall s : R, fastInverseSqrt s = 1 / sqrt s) ->
    (forall v : Vector2 R, length2 v <> 0 -> normalize2_fast v = normalize2 v) /\
    (forall v : Vector3 R, length3 v <> 0 -> normalize3_fast v = normalize3 v) /\
    (forall v : Vector4 R, length4 v <> 0 -> normalize4_fast v = normalize4 v).
Proof.
  intros F HF. repeat split; intros v Hv; destruct v.
  - unfold_exact. rewrite HF. unfold_exact. f_equal; field; exact Hv.
  - unfold_exact. rewrite HF. unfold_exact. f_equal; field; exact Hv.
  - unfold_exact. rewrite HF. unfold_exact. f_equal; field; exact Hv.
Qed.

End ExactArithmetic.

(** ** Facts about binary64 arithmetic *)

Section Binary64Facts.

Lemma SFmul_comm :
  forall x y : spec_float, SF64mul x y = SF64mul y x.
Proof.
  intros [sx | sx | | sx mx ex] [sy | sy | | sy my ey];
    unfold SF64mul, SFmul; try reflexivity;
    rewrite (xorb_comm sx sy); try reflexivity.
  rewrite (Pos.mul_comm mx my), (Z.add_comm ex ey). reflexivity.
Qed.

Lemma binary_round_aux_opp :
  forall (s : bool) (m e : Z) (l : location),
    binary_round_aux prec emax (negb s) m e l
    = SFopp (binary_round_aux prec emax s m e l).
Proof.
  intros s m e l. unfold binary_round_aux.
  destruct (shr_fexp prec emax m e l) as [mrs' e'].
  destruct (shr_fexp prec emax _ e' loc_Exact) as [mrs'' e''].
  destruct (shr_m mrs''); try reflexivity.
  destruct (Z.leb e'' (Z.sub emax prec)); reflexivity.
Qed.

Lemma binary_round_opp :
  forall (s : bool) (m : positive) (e : Z),
    binary_round prec emax (negb s) m e = SFopp (binary_round prec emax s m e).
Proof.
  intros s m e. unfold binary_round.
  destruct (shl_align m e _) as [mz ez]. apply binary_round_aux_opp.
Qed.

Lemma binary_normalize_opp :
  forall m e : Z,
    same_value (binary_normalize prec emax (- m) e false)
               (SFopp (binary_normalize prec emax m e false)).
Proof.
  intros [ | p | p ] e; cbn [Z.opp binary_normalize].
  - right. exists false, true. split; reflexivity.
  - left. apply (binary_round_opp false).
  - left. rewrite (binary_round_opp false). destruct (binary_round prec emax false p e); cbn; rewrite ?negb_involutive; reflexivity.
Qed.

Lemma SFsub_antisym :
  forall x y : spec_float, same_value (SF64sub x y) (SFopp (SF64sub y x)).
Proof.
  intros [sx | sx | | sx mx ex] [sy | sy | | sy my ey];
    unfold SF64sub, SFsub;
    try (left; reflexivity);
    try (destruct sx, sy; (left; reflexivity) || (right; do 2 eexists; split; reflexivity));
    try (destruct sx; left; reflexivity);
    try (destruct sy; left; reflexivity).
  cbv beta iota zeta. rewrite (Z.min_comm ey ex).
    match goal with
    | |- same_value (binary_normalize _ _ (?a - ?b)%Z _ _) _ =>
        replace (Z.sub a b) with (- (Z.sub b a))%Z by lia
    end.
    apply binary_normalize_opp.
Qed.

Lemma SFcompare_refl :
  forall x : spec_float, x <> S754_nan -> SFcompare x x = Some Eq.
Proof.
  intros [s | s | | s m e] Hx; try (destruct s; reflexivity).
  - contradiction.
  - cbn. rewrite Z.compare_refl. 
    rewrite Pos.compare_cont_refl. destruct s; reflexivity.
Qed.

Lemma SFeqb_same_value :
  forall x y : spec_float,
    same_value x y -> SFeqb x y = SFeqb x x.
Proof.
  intros x y [-> | (s & s' & -> & ->)]; reflexivity.
Qed.

Lemma SFcompare_antisym :
  forall x y : spec_float,
    SFcompare y x = option_map CompOpp (SFcompare x y).
Proof.
  intros [sx | sx | | sx mx ex] [sy | sy | | sy my ey]; cbn;
    try reflexivity;
    try (destruct sx; reflexivity);
    try (destruct sy; reflexivity);
    try (destruct sx, sy; reflexivity).
  rewrite (Z.compare_antisym ex ey).
  replace (Pos.compare_cont Eq my mx)
    with (CompOpp (Pos.compare_cont Eq mx my))
    by apply (Pos.compare_cont_antisym mx my Eq).
  destruct sx, sy; try reflexivity;
    destruct (ex ?= ey)%Z; cbn; try reflexivity;
    destruct (Pos.compare_cont Eq mx my); reflexivity.
Qed.

Lemma SFcompare_defined :
  forall x y : spec_float,
    x <> S754_nan -> y <> S754_nan -> exists c, SFcompare x y = Some c.
Proof.
  intros [sx | sx | | sx mx ex] [sy | sy | | sy my ey] Hx Hy;
    try contradiction; cbn; eexists; reflexivity.
Qed.

Lemma SFcompare_not_nan :
  forall (x y : spec_float) (c : comparison),
    SFcompare x y = Some c -> x <> S754_nan /\ y <> S754_nan.
Proof.
  intros [sx | sx | | sx mx ex] [sy | sy | | sy my ey] c Hc;
    try discriminate; split; discriminate.
Qed.

Lemma float_mul_comm : forall a b : float, (a * b = b * a)%float.
Proof.
  intros a b. apply Prim2SF_inj. rewrite !mul_spec. apply SFmul_comm.
Qed.

(** [p - q == -(q - p)] holds exactly when [p - q] is a number. *)
Lemma float_sub_antisym :
  forall p q : float,
    (p - q =? - (q - p))%float = negb (is_nan (p - q)%float).
Proof.
  intros p q. unfold is_nan. rewrite negb_involutive.
  rewrite !eqb_spec, opp_spec, !sub_spec.
  apply SFeqb_same_value, SFsub_antisym.
Qed.

Lemma float_leb_refl :
  forall a b : float,
    (a <=? b)%float = true -> (a <=? a)%float = true /\ (b <=? b)%float = true.
Proof.
  intros a b. rewrite !leb_spec. unfold SFleb.
  destruct (SFcompare (Prim2SF a) (Prim2SF b)) as [c | ] eqn:E; [ | discriminate ].
  destruct (SFcompare_not_nan _ _ _ E) as [Ha Hb].
  rewrite (SFcompare_refl _ Ha), (SFcompare_refl _ Hb). auto.
Qed.

Lemma float_finite_leb_refl :
  forall a : float, is_finite a = true -> (a <=? a)%float = true.
Proof.
  intros a. unfold is_finite, is_nan.
  rewrite eqb_spec, leb_spec. unfold SFeqb, SFleb.
  destruct (SFcompare (Prim2SF a) (Prim2SF a)) as [[ | | ] | ]; cbn;
    auto; discriminate.
Qed.

Lemma float_not_ltb_leb :
  forall a b : float,
    (a <=? a)%float = true -> (b <=? b)%float = true ->
    (a <? b)%float = false -> (b <=? a)%float = true.
Proof.
  intros a b. rewrite !leb_spec, ltb_spec. unfold SFleb, SFltb.
  intros Ha Hb.
  destruct (SFcompare (Prim2SF a) (Prim2SF a)) as [ca | ] eqn:Ea;
    [ | discriminate ].
  destruct (SFcompare (Prim2SF b) (Prim2SF b)) as [cb | ] eqn:Eb;
    [ | discriminate ].
  destruct (SFcompare_not_nan _ _ _ Ea) as [Na _].
  destruct (SFcompare_not_nan _ _ _ Eb) as [Nb _].
  rewrite (SFcompare_antisym (Prim2SF a) (Prim2SF b)).
  destruct (SFcompare_defined _ _ Na Nb) as [c ->].
  destruct c; cbn; auto.
Qed.

Lemma float_leb_not_gtb :
  forall a b : float, (a <=? b)%float = true -> (b <? a)%float = false.
Proof.
  intros a b. rewrite leb_spec, ltb_spec. unfold SFleb, SFltb.
  rewrite (SFcompare_antisym (Prim2SF a) (Prim2SF b)).
  destruct (SFcompare (Prim2SF a) (Prim2SF b)) as [[ | | ] | ]; cbn;
    auto; discriminate.
Qed.

End Binary64Facts.

(** ** Cross product: anti-commutativity *)

(** C8, over the reals and at [double]: over the reals [cross v1 v2] is the
    negation of [cross v2 v1]; at [double] the two compare equal with [==]
    exactly when no component of [cross v1 v2] is a NaN. *)
Theorem cross_is_anticommutative :
  (forall v1 v2 : Vector3 R, cross v1 v2 = vneg3 (cross v2 v1)) /\
  (forall v1 v2 : Vector3 float,
      veqb3 (cross v1 v2) (vneg3 (cross v2 v1))
      = negb (has_nan3 (cross v1 v2))).
Proof.
  split.
  - intros [a1 b1 c1] [a2 b2 c2]. unfold_exact. f_equal; ring.
  - intros [a1 b1 c1] [a2 b2 c2].
    unfold veqb3, has_nan3, vneg3, cross; cbn.
    rewrite (float_mul_comm b2 c1), (float_mul_comm c2 b1),
      (float_mul_comm c2 a1), (float_mul_comm a2 c1),
      (float_mul_comm a2 b1), (float_mul_comm b2 a1).
    rewrite !float_sub_antisym, !negb_orb. reflexivity.
Qed.

(** C8 fails as stated at [double]: two vectors of finite components whose
    products overflow have a cross product with a NaN component, which
    compares unequal to everything; and the cross product of the zero vector
    with itself and its negation differ in the sign of their zeros. *)
Lemma cross_anticommutativity_fails_at_double :
  let v1 := mkVector3 0x1p+600%float 0x1p+600%float 0%float in
  let v2 := mkVector3 0x1p+600%float 0x1p+601%float 0%float in
  let o := mkVector3 0%float 0%float 0%float in
  forallb is_finite (components3 v1 ++ components3 v2) = true /\
  veqb3 (cross v1 v2) (vneg3 (cross v2 v1)) = false /\
  cross o o <> vneg3 (cross o o).
Proof.
  cbv zeta. split; [ | split ].
  - vm_compute. reflexivity.
  - vm_compute. reflexivity.
  - intros E.
    apply (f_equal (fun v => PrimFloat.ltb (PrimFloat.div 1 (x3 v)) 0)) in E.
    vm_compute in E. discriminate E.
Qed.

(** ** Normalization at [double] *)

(** C5 fails as stated at [double]: the square of 2^600 overflows, so the
    length of the vector (2^600, 0) is infinite, its default [normalize] is
    the zero vector, and the length of that is 0; the square of 2^-600
    underflows to 0, and the length of the normalized (2^-600, 0) is a NaN. *)
Lemma normalize_is_not_unit_at_extreme_doubles :
  let big := mkVector2 0x1p+600%float 0%float in
  let small := mkVector2 0x1p-600%float 0%float in
  (forallb is_finite (components2 big) = true /\
   is_zero (x2 big) = false /\
   normalize2 big = mkVector2 0%float 0%float /\
   length2 (normalize2 big) = 0%float /\
   PrimFloat.leb (abs (PrimFloat.sub (length2 (normalize2 big)) 1))
                 0x1p-19%float = false) /\
  (forallb is_finite (components2 small) = true /\
   is_zero (x2 small) = false /\
   is_nan (length2 (normalize2 small)) = true).
Proof.
  cbv zeta. repeat split; vm_compute; reflexivity.
Qed.

(** ** Clamp *)

Section ClampLifting.
Context {T : Type} `{ScalarOrder T} `{ScalarClamp T}.
Variable finite : T -> bool.
Hypothesis scalar_clamp_bounds :
  forall x lo hi : T,
    finite x = true -> (lo <= hi)%S = true ->
    within lo hi (scalar_clamp x lo hi) = true.

(** Whatever the scalar [clamp] guarantees on finite arguments, the vector
    [clamp] guarantees on every component. *)
Lemma clamp_lifts_scalar_bounds :
  forall lo hi : T,
    (lo <= hi)%S = true ->
    (forall v : Vector2 T,
        forallb finite (components2 v) = true ->
        forallb (within lo hi) (components2 (clamp2 v lo hi)) = true) /\
    (forall v : Vector3 T,
        forallb finite (components3 v) = true ->
        forallb (within lo hi) (components3 (clamp3 v lo hi)) = true) /\
    (forall v : Vector4 T,
        forallb finite (components4 v) = true ->
        forallb (within lo hi) (components4 (clamp4 v lo hi)) = true).
Proof.
  intros lo hi Hle. repeat split; intros v Hv; destruct v; cbn in *;
    repeat match goal with
           | Hc : _ && _ = true |- _ => apply andb_prop in Hc; destruct Hc
           end;
    rewrite ?scalar_clamp_bounds by assumption; reflexivity.
Qed.

(** The vector [clamp] hands the same two bounds to the scalar [clamp] at
    every component. *)
Lemma clamp_same_bounds :
  forall lo hi : T,
    (forall v : Vector2 T,
        components2 (clamp2 v lo hi)
        = map (fun c => scalar_clamp c lo hi) (components2 v)) /\
    (forall v : Vector3 T,
        components3 (clamp3 v lo hi)
        = map (fun c => scalar_clamp c lo hi) (components3 v)) /\
    (forall v : Vector4 T,
        components4 (clamp4 v lo hi)
        = map (fun c => scalar_clamp c lo hi) (components4 v)).
Proof.
  intros lo hi. repeat split.
Qed.
End ClampLifting.

(** The scalar [clamp] of the spec keeps a finite [double] within bounds
    that are in order. *)
Lemma spec_clamp_bounds_at_double :
  forall x lo hi : float,
    is_finite x = true -> (lo <=? hi)%float = true ->
    within lo hi (spec_clamp x lo hi) = true.
Proof.
  intros x lo hi Hx Hle.
  destruct (float_leb_refl _ _ Hle) as [Hlo Hhi].
  pose proof (float_finite_leb_refl _ Hx) as Hxx.
  unfold within, spec_clamp, spec_min, spec_max; cbn.
  destruct (x <? lo)%float eqn:E1.
  - rewrite (float_leb_not_gtb _ _ Hle), Hlo, Hle. reflexivity.
  - destruct (hi <? x)%float eqn:E2.
    + rewrite Hle, Hhi. reflexivity.
    + rewrite (float_not_ltb_leb _ _ Hxx Hlo E1),
        (float_not_ltb_leb _ _ Hhi Hxx E2). reflexivity.
Qed.

(** The same at an integer type, where every value is finite. *)
Lemma spec_clamp_bounds_at_integer :
  forall x lo hi : Z,
    (fun _ : Z => true) x = true -> (lo <=? hi)%Z = true ->
    within lo hi (spec_clamp x lo hi) = true.
Proof.
  intros x lo hi _ Hle.
  unfold within, spec_clamp, spec_min, spec_max; cbn.
  destruct (x <? lo)%Z eqn:E1.
  - destruct (hi <? lo)%Z eqn:E2; lia.
  - destruct (hi <? x)%Z eqn:E2; lia.
Qed.

Lemma forallb_always :
  forall (A : Type) (l : list A), forallb (fun _ => true) l = true.
Proof.
  intros A l; induction l as [ | a l IH ]; cbn; auto.
Qed.

(** C6, with the scalar [clamp] of the spec, at [double] and at an integer
    type: when [lo <= hi], every component of the clamp of a vector of
    finite components lies in [lo, hi], and each component is the scalar
    clamp of the argument's component between the same [lo] and [hi]. *)
Theorem clamp_components_within_bounds :
  (forall lo hi : float,
      (lo <=? hi)%float = true ->
      (forall v : Vector2 float,
          forallb is_finite (components2 v) = true ->
          forallb (within lo hi) (components2 (clamp2 v lo hi)) = true /\
          components2 (clamp2 v lo hi)
          = map (fun c => scalar_clamp c lo hi) (components2 v)) /\
      (forall v : Vector3 float,
          forallb is_finite (components3 v) = true ->
          forallb (within lo hi) (components3 (clamp3 v lo hi)) = true /\
          components3 (clamp3 v lo hi)
          = map (fun c => scalar_clamp c lo hi) (components3 v)) /\
      (forall v : Vector4 float,
          forallb is_finite (components4 v) = true ->
          forallb (within lo hi) (components4 (clamp4 v lo hi)) = true /\
          components4 (clamp4 v lo hi)
          = map (fun c => scalar_clamp c lo hi) (components4 v))) /\
  (forall lo hi : Z,
      (lo <=? hi)%Z = true ->
      (forall v : Vector2 Z,
          forallb (within lo hi) (components2 (clamp2 v lo hi)) = true /\
          components2 (clamp2 v lo hi)
          = map (fun c => scalar_clamp c lo hi) (components2 v)) /\
      (forall v : Vector3 Z,
          forallb (within lo hi) (components3 (clamp3 v lo hi)) = true /\
          components3 (clamp3 v lo hi)
          = map (fun c => scalar_clamp c lo hi) (components3 v)) /\
      (forall v : Vector4 Z,
          forallb (within lo hi) (components4 (clamp4 v lo hi)) = true /\
          components4 (clamp4 v lo hi)
          = map (fun c => scalar_clamp c lo hi) (components4 v))).
Proof.
  split; intros lo hi Hle.
  - destruct (@clamp_lifts_scalar_bounds float float_Order float_Clamp
                is_finite spec_clamp_bounds_at_double lo hi Hle)
      as (B2 & B3 & B4).
    destruct (clamp_same_bounds (T := float) lo hi) as (S2 & S3 & S4).
    repeat split; auto.
  - destruct (@clamp_lifts_scalar_bounds Z uint_Order uint_Clamp
                (fun _ => true) spec_clamp_bounds_at_integer lo hi Hle)
      as (B2 & B3 & B4).
    destruct (clamp_same_bounds (T := Z) lo hi) as (S2 & S3 & S4).
    repeat split; auto using forallb_always.
Qed.

(** ** Instances of the conditional statements *)

Lemma nonzero_3_4 : mkVector2 3%R 4%R <> mkVector2 0%R 0%R.
Proof.
  intros E. injection E as E3 E4. lra.
Qed.

Lemma nonzero_1_2_2 : mkVector3 1%R 2%R 2%R <> mkVector3 0%R 0%R 0%R.
Proof.
  intros E. injection E as E1 E2 E3. lra.
Qed.

Lemma nonzero_1_1_1_1 :
  mkVector4 1%R 1%R 1%R 1%R <> mkVector4 0%R 0%R 0%R 0%R.
Proof.
  intros E. injection E as E1 E2 E3 E4. lra.
Qed.

Lemma length_3_4_nonzero : length2 (mkVector2 3%R 4%R) <> 0%R.
Proof.
  unfold_exact. apply sqrt_pos_neq0. lra.
Qed.

Lemma length_1_2_2_nonzero : length3 (mkVector3 1%R 2%R 2%R) <> 0%R.
Proof.
  unfold_exact. apply sqrt_pos_neq0. lra.
Qed.

Lemma length_1_1_1_1_nonzero :
  length4 (mkVector4 1%R 1%R 1%R 1%R) <> 0%R.
Proof.
  unfold_exact. apply sqrt_pos_neq0. lra.
Qed.

(** With [1 / sqrt x] for the fast inverse square root, the two builds of
    [normalize] agree on (3, 4), (1, 2, 2) and (1, 1, 1, 1). *)
Lemma normalize_fast_agrees_with_accurate_exact_witness :
  let F : FastInverseSqrt R := fun s => (1 / R_sqrt.sqrt s)%R in
  normalize2_fast (mkVector2 3%R 4%R) = normalize2 (mkVector2 3%R 4%R) /\
  normalize3_fast (mkVector3 1%R 2%R 2%R)
  = normalize3 (mkVector3 1%R 2%R 2%R) /\
  normalize4_fast (mkVector4 1%R 1%R 1%R 1%R)
  = normalize4 (mkVector4 1%R 1%R 1%R 1%R).
Proof.
  intros F.
  destruct (normalize_fast_agrees_with_accurate_exact F (fun s => eq_refl))
    as (A2 & A3 & A4).
  split; [ | split ].
  - exact (A2 _ length_3_4_nonzero).
  - exact (A3 _ length_1_2_2_nonzero).
  - exact (A4 _ length_1_1_1_1_nonzero).
Defined.

(** [clamp(Vector2(-1, 5), 0, 3)] is [Vector2(0, 3)], within [0, 3]. *)
Lemma clamp_components_within_bounds_witness :
  clamp2 (mkVector2 (-1)%float 5%float) 0%float 3%float
  = mkVector2 0%float 3%float /\
  forallb (within 0%float 3%float)
    (components2 (clamp2 (mkVector2 (-1)%float 5%float) 0%float 3%float))
  = true.
Proof.
  destruct clamp_components_within_bounds as [Hdouble _].
  destruct (Hdouble 0%float 3%float eq_refl) as (W2 & _ & _).
  destruct (W2 (mkVector2 (-1)%float 5%float) eq_refl) as [Hin _].
  split; [ vm_compute; reflexivity | exact Hin ].
Defined.

(** * Further properties of the vector operations *)

(** ** Dot product: symmetry *)

(** X1: [dot] is symmetric in its two arguments, over the reals and at
    [double] (where only the products are commuted, the order of the
    additions being the same on both sides), at each arity. *)
Theorem dot_is_symmetric :
  ((forall v1 v2 : Vector2 R, dot2 v1 v2 = dot2 v2 v1) /\
   (forall v1 v2 : Vector3 R, dot3 v1 v2 = dot3 v2 v1) /\
   (forall v1 v2 : Vector4 R, dot4 v1 v2 = dot4 v2 v1)) /\
  ((forall v1 v2 : Vector2 float, dot2 v1 v2 = dot2 v2 v1) /\
   (forall v1 v2 : Vector3 float, dot3 v1 v2 = dot3 v2 v1) /\
   (forall v1 v2 : Vector4 float, dot4 v1 v2 = dot4 v2 v1)).
Proof.
  split; [ split; [ | split ] | split; [ | split ] ].
  - intros [a1 b1] [a2 b2]. unfold_exact. ring.
  - intros [a1 b1 c1] [a2 b2 c2]. unfold_exact. ring.
  - intros [a1 b1 c1 d1] [a2 b2 c2 d2]. unfold_exact. ring.
  - intros [a1 b1] [a2 b2]. unfold dot2; cbn.
    rewrite (float_mul_comm a1 a2), (float_mul_comm b1 b2). reflexivity.
  - intros [a1 b1 c1] [a2 b2 c2]. unfold dot3; cbn.
    rewrite (float_mul_comm a1 a2), (float_mul_comm b1 b2),
      (float_mul_comm c1 c2). reflexivity.
  - intros [a1 b1 c1 d1] [a2 b2 c2 d2]. unfold dot4; cbn.
    rewrite (float_mul_comm a1 a2), (float_mul_comm b1 b2),
      (float_mul_comm c1 c2), (float_mul_comm d1 d2). reflexivity.
Qed.

(** ** Length and squared length over the reals *)

Section ExactNorms.
Open Scope R_scope.

Lemma sum_squares2_zero :
  forall a b : R, a * a + b * b = 0 -> a = 0 /\ b = 0.
Proof.
  intros a b E. split; nra.
Qed.

Lemma sum_squares3_zero :
  forall a b c : R, a * a + b * b + c * c = 0 -> a = 0 /\ b = 0 /\ c = 0.
Proof.
  intros a b c E. repeat split; nra.
Qed.

Lemma sum_squares4_zero :
  forall a b c d : R,
    a * a + b * b + c * c + d * d = 0 -> a = 0 /\ b = 0 /\ c = 0 /\ d = 0.
Proof.
  intros a b c d E. repeat split; nra.
Qed.

(** X2: over the reals [lengthSquared] is never negative, and it is 0 on
    the zero vector only. *)
Theorem lengthSquared_exact_is_positive_definite :
  (forall v : Vector2 R,
      0 <= lengthSquared2 v /\
      (lengthSquared2 v = 0 <-> v = mkVector2 0 0)) /\
  (forall v : Vector3 R,
      0 <= lengthSquared3 v /\
      (lengthSquared3 v = 0 <-> v = mkVector3 0 0 0)) /\
  (forall v : Vector4 R,
      0 <= lengthSquared4 v /\
      (lengthSquared4 v = 0 <-> v = mkVector4 0 0 0 0)).
Proof.
  split; [ | split ].
  - intros [a b]. unfold_exact. split; [ nra | split ].
    + intros E. destruct (sum_squares2_zero _ _ E) as (-> & ->). reflexivity.
    + intros E. injection E as -> ->. ring.
  - intros [a b c]. unfold_exact. split; [ nra | split ].
    + intros E. destruct (sum_squares3_zero _ _ _ E) as (-> & -> & ->).
      reflexivity.
    + intros E. injection E as -> -> ->. ring.
  - intros [a b c d]. unfold_exact. split; [ nra | split ].
    + intros E. destruct (sum_squares4_zero _ _ _ _ E) as (-> & -> & -> & ->).
      reflexivity.
    + intros E. injection E as -> -> -> ->. ring.
Qed.

Lemma sqrt_zero_iff :
  forall s : R, 0 <= s -> (R_sqrt.sqrt s = 0 <-> s = 0).
Proof.
  intros s Hs. split.
  - intros E. apply sqrt_eq_0; assumption.
  - intros ->. apply sqrt_0.
Qed.

(** X3: over the reals [length] is never negative, and it is 0 on the zero
    vector only. *)
Theorem length_exact_is_positive_definite :
  (forall v : Vector2 R,
      0 <= length2 v /\ (length2 v = 0 <-> v = mkVector2 0 0)) /\
  (forall v : Vector3 R,
      0 <= length3 v /\ (length3 v = 0 <-> v = mkVector3 0 0 0)) /\
  (forall v : Vector4 R,
      0 <= length4 v /\ (length4 v = 0 <-> v = mkVector4 0 0 0 0)).
Proof.
  split; [ | split ].
  - intros [a b]. unfold_exact. split; [ apply sqrt_pos | ].
    rewrite sqrt_zero_iff by nra. split.
    + intros E. destruct (sum_squares2_zero _ _ E) as (-> & ->). reflexivity.
    + intros E. injection E as -> ->. ring.
  - intros [a b c]. unfold_exact. split; [ apply sqrt_pos | ].
    rewrite sqrt_zero_iff by nra. split.
    + intros E. destruct (sum_squares3_zero _ _ _ E) as (-> & -> & ->).
      reflexivity.
    + intros E. injection E as -> -> ->. ring.
  - intros [a b c d]. unfold_exact. split; [ apply sqrt_pos | ].
    rewrite sqrt_zero_iff by nra. split.
    + intros E. destruct (sum_squares4_zero _ _ _ _ E) as (-> & -> & -> & ->).
      reflexivity.
    + intros E. injection E as -> -> -> ->. ring.
Qed.

(** X4: over the reals the squared length of the cross product is the
    product of the squared lengths less the square of the dot product
    (Lagrange's identity), so it never exceeds the product of the squared
    lengths. *)
Theorem cross_lengthSquared_exact :
  forall v1 v2 : Vector3 R,
    lengthSquared3 (cross v1 v2)
    = lengthSquared3 v1 * lengthSquared3 v2 - dot3 v1 v2 * dot3 v1 v2 /\
    lengthSquared3 (cross v1 v2) <= lengthSquared3 v1 * lengthSquared3 v2.
Proof.
  intros [a1 b1 c1] [a2 b2 c2].
  assert (E : lengthSquared3
                (cross (mkVector3 a1 b1 c1) (mkVector3 a2 b2 c2))
              = lengthSquared3 (mkVector3 a1 b1 c1)
                * lengthSquared3 (mkVector3 a2 b2 c2)
                - dot3 (mkVector3 a1 b1 c1) (mkVector3 a2 b2 c2)
                  * dot3 (mkVector3 a1 b1 c1) (mkVector3 a2 b2 c2))
    by (unfold_exact; ring).
  split; [ exact E | ].
  rewrite E.
  pose proof (Rle_0_sqr (dot3 (mkVector3 a1 b1 c1) (mkVector3 a2 b2 c2)))
    as Hsq.
  unfold Rsqr in Hsq. lra.
Qed.

End ExactNorms.

(** ** Normalization over the reals *)

Section ExactNormalize.
Open Scope R_scope.

Lemma sqrt_scaled :
  forall k s : R, 0 < k -> 0 <= s ->
    R_sqrt.sqrt (k * k * s) = k * R_sqrt.sqrt s.
Proof.
  intros k s Hk Hs.
  rewrite sqrt_mult by nra. rewrite sqrt_square by lra. reflexivity.
Qed.

(** X5: over the reals, scaling a vector that is not the zero vector by a
    positive factor does not change its default [normalize]. *)
Theorem normalize_exact_ignores_positive_scale :
  forall k : R,
    0 < k ->
    (forall v : Vector2 R,
        v <> mkVector2 0 0 -> normalize2 (vmul2 v k) = normalize2 v) /\
    (forall v : Vector3 R,
        v <> mkVector3 0 0 0 -> normalize3 (vmul3 v k) = normalize3 v) /\
    (forall v : Vector4 R,
        v <> mkVector4 0 0 0 0 -> normalize4 (vmul4 v k) = normalize4 v).
Proof.
  intros k Hk. split; [ | split ].
  - intros v Hv. pose proof (lengthSquared2_pos v Hv) as Hs.
    pose proof (sqrt_pos_neq0 _ Hs) as Hq.
    destruct v as [a b]. unfold_exact.
    replace (a * k * (a * k) + b * k * (b * k))
      with (k * k * (a * a + b * b)) by ring.
    rewrite sqrt_scaled by lra. f_equal; field; split; lra.
  - intros v Hv. pose proof (lengthSquared3_pos v Hv) as Hs.
    pose proof (sqrt_pos_neq0 _ Hs) as Hq.
    destruct v as [a b c]. unfold_exact.
    replace (a * k * (a * k) + b * k * (b * k) + c * k * (c * k))
      with (k * k * (a * a + b * b + c * c)) by ring.
    rewrite sqrt_scaled by lra. f_equal; field; split; lra.
  - intros v Hv. pose proof (lengthSquared4_pos v Hv) as Hs.
    pose proof (sqrt_pos_neq0 _ Hs) as Hq.
    destruct v as [a b c d]. unfold_exact.
    replace (a * k * (a * k) + b * k * (b * k) + c * k * (c * k)
             + d * k * (d * k))
      with (k * k * (a * a + b * b + c * c + d * d)) by ring.
    rewrite sqrt_scaled by lra. f_equal; field; split; lra.
Qed.

Lemma vdiv2_one : forall v : Vector2 R, vdiv2 v 1 = v.
Proof.
  intros [a b]. unfold vdiv2; cbn. f_equal; field.
Qed.

Lemma vdiv3_one : forall v : Vector3 R, vdiv3 v 1 = v.
Proof.
  intros [a b c]. unfold vdiv3; cbn. f_equal; field.
Qed.

Lemma vdiv4_one : forall v : Vector4 R, vdiv4 v 1 = v.
Proof.
  intros [a b c d]. unfold vdiv4; cbn. f_equal; field.
Qed.

Lemma length2_of_normalize2 :
  forall v : Vector2 R, v <> mkVector2 0 0 -> length2 (normalize2 v) = 1.
Proof.
  intros v Hv. pose proof (lengthSquared2_pos v Hv) as Hs.
  pose proof (sqrt_pos_neq0 _ Hs) as Hq.
  apply (sqrt_of_ratio_is_one _ _ Hs).
  destruct v as [a b]; unfold_exact. field. exact Hq.
Qed.

Lemma length3_of_normalize3 :
  forall v : Vector3 R, v <> mkVector3 0 0 0 -> length3 (normalize3 v) = 1.
Proof.
  intros v Hv. pose proof (lengthSquared3_pos v Hv) as Hs.
  pose proof (sqrt_pos_neq0 _ Hs) as Hq.
  apply (sqrt_of_ratio_is_one _ _ Hs).
  destruct v as [a b c]; unfold_exact. field. exact Hq.
Qed.

Lemma length4_of_normalize4 :
  forall v : Vector4 R,
    v <> mkVector4 0 0 0 0 -> length4 (normalize4 v) = 1.
Proof.
  intros v Hv. pose proof (lengthSquared4_pos v Hv) as Hs.
  pose proof (sqrt_pos_neq0 _ Hs) as Hq.
  apply (sqrt_of_ratio_is_one _ _ Hs).
  destruct v as [a b c d]; unfold_exact. field. exact Hq.
Qed.

(** X6: over the reals the default [normalize] is idempotent on every
    vector that is not the zero vector. *)
Theorem normalize_exact_is_idempotent :
  (forall v : Vector2 R,
      v <> mkVector2 0 0 -> normalize2 (normalize2 v) = normalize2 v) /\
  (forall v : Vector3 R,
      v <> mkVector3 0 0 0 -> normalize3 (normalize3 v) = normalize3 v) /\
  (forall v : Vector4 R,
      v <> mkVector4 0 0 0 0 -> normalize4 (normalize4 v) = normalize4 v).
Proof.
  split; [ | split ]; intros v Hv.
  - unfold normalize2 at 1. rewrite (length2_of_normalize2 v Hv).
    apply vdiv2_one.
  - unfold normalize3 at 1. rewrite (length3_of_normalize3 v Hv).
    apply vdiv3_one.
  - unfold normalize4 at 1. rewrite (length4_of_normalize4 v Hv).
    apply vdiv4_one.
Qed.

End ExactNormalize.

(** ** Signs and zeros at [double] *)

Section Binary64Signs.

Lemma binary_round_aux_sign_nonneg :
  forall (m e : Z) (l : location),
    sign_nonneg (binary_round_aux prec emax false m e l) = true.
Proof.
  intros m e l. unfold binary_round_aux.
  destruct (shr_fexp prec emax m e l) as [mrs' e'].
  destruct (shr_fexp prec emax _ e' loc_Exact) as [mrs'' e''].
  destruct (shr_m mrs''); try reflexivity.
  destruct (Z.leb e'' (Z.sub emax prec)); reflexivity.
Qed.

Lemma binary_round_sign_nonneg :
  forall (m : positive) (e : Z),
    sign_nonneg (binary_round prec emax false m e) = true.
Proof.
  intros m e. unfold binary_round.
  destruct (shl_align m e _) as [mz ez]. apply binary_round_aux_sign_nonneg.
Qed.

Lemma SFmul_self_sign_nonneg :
  forall x : spec_float, sign_nonneg (SF64mul x x) = true.
Proof.
  intros [s | s | | s m e]; unfold SF64mul, SFmul;
    rewrite ?xorb_nilpotent; try reflexivity.
  apply binary_round_aux_sign_nonneg.
Qed.

Lemma SFadd_sign_nonneg :
  forall x y : spec_float,
    sign_nonneg x = true -> sign_nonneg y = true ->
    sign_nonneg (SF64add x y) = true.
Proof.
  intros [sx | sx | | sx mx ex] [sy | sy | | sy my ey] Hx Hy;
    cbn in Hx, Hy;
    try (destruct sx; try discriminate Hx);
    try (destruct sy; try discriminate Hy);
    try reflexivity.
  unfold SF64add, SFadd. cbv beta iota zeta. cbn [cond_Zopp Z.add].
  apply binary_round_sign_nonneg.
Qed.

Lemma SFsqrt_sign_nonneg :
  forall x : spec_float,
    sign_nonneg x = true -> sign_nonneg (SF64sqrt x) = true.
Proof.
  intros [s | s | | s m e] Hx; cbn in Hx;
    try (destruct s; try discriminate Hx); try reflexivity.
  unfold SF64sqrt, SFsqrt.
  destruct (SFsqrt_core_binary prec emax (Z.pos m) e) as [[mz ez] lz].
  apply binary_round_aux_sign_nonneg.
Qed.

Lemma sign_nonneg_leb_zero :
  forall x : spec_float,
    sign_nonneg x = true ->
    SFleb (S754_zero false) x = SFeqb x x.
Proof.
  intros [s | s | | s m e] Hx; cbn in Hx;
    try (destruct s; try discriminate Hx); try reflexivity.
  unfold SFleb, SFeqb. rewrite SFcompare_refl by discriminate. reflexivity.
Qed.

(** A [double] whose sign bit is clear or that is a NaN compares [0 <= x]
    exactly when it is not a NaN. *)
Lemma float_sign_nonneg_leb :
  forall x : float,
    sign_nonneg (Prim2SF x) = true ->
    (0 <=? x)%float = negb (is_nan x).
Proof.
  intros x Hx. unfold is_nan. rewrite negb_involutive.
  rewrite leb_spec, eqb_spec. apply (sign_nonneg_leb_zero _ Hx).
Qed.

Lemma float_square_sign_nonneg :
  forall x : float, sign_nonneg (Prim2SF (x * x)%float) = true.
Proof.
  intros x. rewrite mul_spec. apply SFmul_self_sign_nonneg.
Qed.

Lemma float_add_sign_nonneg :
  forall x y : float,
    sign_nonneg (Prim2SF x) = true -> sign_nonneg (Prim2SF y) = true ->
    sign_nonneg (Prim2SF (x + y)%float) = true.
Proof.
  intros x y Hx Hy. rewrite add_spec. apply SFadd_sign_nonneg; assumption.
Qed.

Lemma float_sqrt_sign_nonneg :
  forall x : float,
    sign_nonneg (Prim2SF x) = true ->
    sign_nonneg (Prim2SF (PrimFloat.sqrt x)) = true.
Proof.
  intros x Hx. rewrite sqrt_spec. apply SFsqrt_sign_nonneg; assumption.
Qed.

(** The difference of a [double] with itself is +0 or a NaN. *)
Lemma float_sub_self :
  forall p : float, (p - p)%float = 0%float \/ is_nan (p - p)%float = true.
Proof.
  intros p.
  assert (E : Prim2SF (p - p)%float = S754_zero false
              \/ Prim2SF (p - p)%float = S754_nan).
  { rewrite sub_spec. destruct (Prim2SF p) as [s | s | | s m e];
      unfold SF64sub, SFsub.
    - left. destruct s; reflexivity.
    - right. destruct s; reflexivity.
    - right. reflexivity.
    - left. cbv beta iota zeta. rewrite Z.sub_diag. reflexivity. }
  destruct E as [E | E].
  - left. apply Prim2SF_inj. rewrite E. reflexivity.
  - right. unfold is_nan. rewrite eqb_spec, E. reflexivity.
Qed.

(** A [double] that compares equal to 0 is +0 or -0. *)
Lemma float_is_zero_cases :
  forall x : float, is_zero x = true -> x = 0%float \/ x = (-0)%float.
Proof.
  intros x. unfold is_zero. rewrite eqb_spec.
  change (Prim2SF zero) with (S754_zero false).
  destruct (Prim2SF x) as [s | s | | s m e] eqn:E; unfold SFeqb; cbn;
    try (destruct s; discriminate); try discriminate.
  intros _. destruct s.
  - right. apply Prim2SF_inj. rewrite E. reflexivity.
  - left. apply Prim2SF_inj. rewrite E. reflexivity.
Qed.

End Binary64Signs.

(** ** Length, cross product and normalization at [double] *)

(** X7: at [double], [lengthSquared] and [length] never return a negative
    number: the result compares [0 <= r] unless it is a NaN. *)
Theorem length_at_double_is_nonnegative_or_nan :
  (forall v : Vector2 float,
      (0 <=? lengthSquared2 v)%float = negb (is_nan (lengthSquared2 v)) /\
      (0 <=? length2 v)%float = negb (is_nan (length2 v))) /\
  (forall v : Vector3 float,
      (0 <=? lengthSquared3 v)%float = negb (is_nan (lengthSquared3 v)) /\
      (0 <=? length3 v)%float = negb (is_nan (length3 v))) /\
  (forall v : Vector4 float,
      (0 <=? lengthSquared4 v)%float = negb (is_nan (lengthSquared4 v)) /\
      (0 <=? length4 v)%float = negb (is_nan (length4 v))).
Proof.
  split; [ | split ].
  - intros [a b].
    assert (Hs : sign_nonneg (Prim2SF (lengthSquared2 (mkVector2 a b)))
                 = true)
      by (unfold lengthSquared2; cbn;
          auto using float_add_sign_nonneg, float_square_sign_nonneg).
    split; apply float_sign_nonneg_leb;
      [ exact Hs | apply float_sqrt_sign_nonneg; exact Hs ].
  - intros [a b c].
    assert (Hs : sign_nonneg (Prim2SF (lengthSquared3 (mkVector3 a b c)))
                 = true)
      by (unfold lengthSquared3; cbn;
          auto using float_add_sign_nonneg, float_square_sign_nonneg).
    split; apply float_sign_nonneg_leb;
      [ exact Hs | apply float_sqrt_sign_nonneg; exact Hs ].
  - intros [a b c d].
    assert (Hs : sign_nonneg (Prim2SF (lengthSquared4 (mkVector4 a b c d)))
                 = true)
      by (unfold lengthSquared4; cbn;
          auto 6 using float_add_sign_nonneg, float_square_sign_nonneg).
    split; apply float_sign_nonneg_leb;
      [ exact Hs | apply float_sqrt_sign_nonneg; exact Hs ].
Qed.

(** X8: the cross product of a vector with itself is the zero vector over
    the reals; at [double], with every multiplication and subtraction
    rounded on its own (no fused multiply-add), each of its components is
    +0 or a NaN. *)
Theorem cross_of_a_vector_with_itself :
  (forall v : Vector3 R, cross v v = mkVector3 0%R 0%R 0%R) /\
  (forall v : Vector3 float,
      Forall (fun c => c = 0%float \/ is_nan c = true)
             (components3 (cross v v))).
Proof.
  split.
  - intros [a b c]. unfold_exact. f_equal; ring.
  - intros [a b c]. unfold cross, components3; cbn.
    rewrite (float_mul_comm c b), (float_mul_comm a c), (float_mul_comm b a).
    repeat (apply Forall_cons; [ apply float_sub_self | ]).
    apply Forall_nil.
Qed.

(** X9: at [double] the default [normalize] of a vector all of whose
    components are zero (of either sign) has a NaN in every component:
    the division by the zero length is not guarded. *)
Theorem normalize_of_zero_vector_at_double :
  (forall v : Vector2 float,
      forallb is_zero (components2 v) = true ->
      forallb is_nan (components2 (normalize2 v)) = true) /\
  (forall v : Vector3 float,
      forallb is_zero (components3 v) = true ->
      forallb is_nan (components3 (normalize3 v)) = true) /\
  (forall v : Vector4 float,
      forallb is_zero (components4 v) = true ->
      forallb is_nan (components4 (normalize4 v)) = true).
Proof.
  split; [ | split ].
  - intros [a b] Hv. cbn in Hv.
    repeat match goal with
           | Hc : _ && _ = true |- _ => apply andb_prop in Hc; destruct Hc
           end.
    destruct (float_is_zero_cases a) as [-> | ->]; [ assumption | | ];
      (destruct (float_is_zero_cases b) as [-> | ->]; [ assumption | | ];
       vm_compute; reflexivity).
  - intros [a b c] Hv. cbn in Hv.
    repeat match goal with
           | Hc : _ && _ = true |- _ => apply andb_prop in Hc; destruct Hc
           end.
    destruct (float_is_zero_cases a) as [-> | ->]; [ assumption | | ];
      (destruct (float_is_zero_cases b) as [-> | ->]; [ assumption | | ];
       (destruct (float_is_zero_cases c) as [-> | ->]; [ assumption | | ];
        vm_compute; reflexivity)).
  - intros [a b c d] Hv. cbn in Hv.
    repeat match goal with
           | Hc : _ && _ = true |- _ => apply andb_prop in Hc; destruct Hc
           end.
    destruct (float_is_zero_cases a) as [-> | ->]; [ assumption | | ];
      (destruct (float_is_zero_cases b) as [-> | ->]; [ assumption | | ];
       (destruct (float_is_zero_cases c) as [-> | ->]; [ assumption | | ];
        (destruct (float_is_zero_cases d) as [-> | ->]; [ assumption | | ];
         vm_compute; reflexivity))).
Qed.

(** ** Composition of the elementwise functions and the combinators *)

Section ElementwiseComposition.
Context {T : Type}.

(** X16: applying one generated elementwise function after another is
    applying the composed scalar function once; so a scalar function that
    undoes another (as [degrees] undoes [radians]) undoes it on vectors. *)
Theorem fcall_composes :
  forall f g : T -> T,
    ((forall v : Vector2 T,
         VEC_FCALL2 g (VEC_FCALL2 f v) = VEC_FCALL2 (fun c => g (f c)) v) /\
     (forall v : Vector3 T,
         VEC_FCALL3 g (VEC_FCALL3 f v) = VEC_FCALL3 (fun c => g (f c)) v) /\
     (forall v : Vector4 T,
         VEC_FCALL4 g (VEC_FCALL4 f v) = VEC_FCALL4 (fun c => g (f c)) v)) /\
    ((forall c : T, g (f c) = c) ->
     (forall v : Vector2 T, VEC_FCALL2 g (VEC_FCALL2 f v) = v) /\
     (forall v : Vector3 T, VEC_FCALL3 g (VEC_FCALL3 f v) = v) /\
     (forall v : Vector4 T, VEC_FCALL4 g (VEC_FCALL4 f v) = v)).
Proof.
  intros f g. split.
  - repeat split.
  - intros Hgf. repeat split; intros v; destruct v;
      unfold VEC_FCALL2, VEC_FCALL3, VEC_FCALL4; cbn;
      rewrite !Hgf; reflexivity.
Qed.
End ElementwiseComposition.

Section CombinatorLaws.
Context {T : Type} `{ScalarMin T} `{ScalarMax T} `{ScalarClamp T}.

(** X17: where the scalar [clamp] is [min(max(x, lo), hi)], the vector
    [clamp] is the vector [min] of the vector [max] with the two bounds
    broadcast to every component. *)
Theorem clamp_is_min_of_max :
  (forall x lo hi : T,
      scalar_clamp x lo hi = scalar_min (scalar_max x lo) hi) ->
  (forall (v : Vector2 T) (lo hi : T),
      clamp2 v lo hi = min2 (max2 v (mkVector2 lo lo)) (mkVector2 hi hi)) /\
  (forall (v : Vector3 T) (lo hi : T),
      clamp3 v lo hi
      = min3 (max3 v (mkVector3 lo lo lo)) (mkVector3 hi hi hi)) /\
  (forall (v : Vector4 T) (lo hi : T),
      clamp4 v lo hi
      = min4 (max4 v (mkVector4 lo lo lo lo)) (mkVector4 hi hi hi hi)).
Proof.
  intros Hc. repeat split; intros v lo hi; destruct v;
    unfold clamp2, clamp3, clamp4, min2, min3, min4, max2, max3, max4; cbn;
    rewrite !Hc; reflexivity.
Qed.

(** X18: the vector [min] and [max] are symmetric in their arguments
    wherever the scalar ones are. *)
Theorem min_and_max_inherit_symmetry :
  (forall a b : T, scalar_min a b = scalar_min b a) ->
  (forall a b : T, scalar_max a b = scalar_max b a) ->
  ((forall v1 v2 : Vector2 T, min2 v1 v2 = min2 v2 v1) /\
   (forall v1 v2 : Vector3 T, min3 v1 v2 = min3 v2 v1) /\
   (forall v1 v2 : Vector4 T, min4 v1 v2 = min4 v2 v1)) /\
  ((forall v1 v2 : Vector2 T, max2 v1 v2 = max2 v2 v1) /\
   (forall v1 v2 : Vector3 T, max3 v1 v2 = max3 v2 v1) /\
   (forall v1 v2 : Vector4 T, max4 v1 v2 = max4 v2 v1)).
Proof.
  intros Hmin Hmax. split; repeat split; intros v1 v2; destruct v1, v2;
    unfold min2, min3, min4, max2, max3, max4; cbn; f_equal;
    first [ apply Hmin | apply Hmax ].
Qed.
End CombinatorLaws.

(** * Properties of the assertion facility *)

Module VGDAssertFacts.
Import VGDAssert.

Lemma string_append_assoc :
  forall a b c : string,
    String.append (String.append a b) c = String.append a (String.append b c).
Proof.
  intros a b c; induction a as [ | ch a IH ]; cbn; [ | rewrite IH ];
    reflexivity.
Qed.

Lemma string_append_empty_r :
  forall a : string, String.append a EmptyString = a.
Proof.
  intros a; induction a as [ | ch a IH ]; cbn; [ | rewrite IH ]; reflexivity.
Qed.

Lemma string_append_cancel_l :
  forall a b c : string, String.append a b = String.append a c -> b = c.
Proof.
  intros a b c; induction a as [ | ch a IH ]; cbn; intros E.
  - exact E.
  - injection E as E. exact (IH E).
Qed.

Lemma prefix_append :
  forall a b : string, String.prefix a (String.append a b) = true.
Proof.
  intros a b; induction a as [ | ch a IH ]; cbn.
  - destruct b; reflexivity.
  - destruct (Ascii.ascii_dec ch ch) as [ _ | N ];
      [ exact IH | contradiction ].
Qed.

Lemma prefix_c_str : forall s : string, String.prefix (c_str s) s = true.
Proof.
  induction s as [ | ch s IH ]; cbn.
  - reflexivity.
  - destruct (Ascii.eqb ch Ascii.zero); cbn.
    + reflexivity.
    + destruct (Ascii.ascii_dec ch ch) as [ _ | N ];
        [ exact IH | contradiction ].
Qed.

Lemma c_str_cons :
  forall (ch : Ascii.ascii) (s : string),
    c_str (String ch s) = String ch s ->
    Ascii.eqb ch Ascii.zero = false /\ c_str s = s.
Proof.
  intros ch s. cbn. destruct (Ascii.eqb ch Ascii.zero).
  - discriminate.
  - intros E. injection E as E. auto.
Qed.

Lemma c_str_step :
  forall (ch : Ascii.ascii) (s : string),
    Ascii.eqb ch Ascii.zero = false ->
    c_str (String ch s) = String ch (c_str s).
Proof.
  intros ch s Hch. cbn. rewrite Hch. reflexivity.
Qed.

Lemma c_str_append :
  forall a b : string,
    c_str a = a -> c_str b = b -> c_str (String.append a b) = String.append a b.
Proof.
  intros a b; induction a as [ | ch a IH ]; intros Ha Hb.
  - exact Hb.
  - destruct (c_str_cons _ _ Ha) as [Hch Ha'].
    cbn. rewrite Hch, (IH Ha' Hb). reflexivity.
Qed.

Lemma c_str_digits :
  forall d : Decimal.uint,
    c_str (DecimalString.NilEmpty.string_of_uint d)
    = DecimalString.NilEmpty.string_of_uint d.
Proof.
  induction d as [ | d IH | d IH | d IH | d IH | d IH | d IH | d IH | d IH
                   | d IH | d IH ]; cbn; rewrite ?IH; reflexivity.
Qed.

Lemma c_str_print_int : forall n : Z, c_str (print_int n) = print_int n.
Proof.
  intros n. unfold print_int, DecimalString.NilZero.string_of_int.
  destruct (Z.to_int n) as [d | d].
  - destruct d; try reflexivity; apply c_str_digits.
  - rewrite c_str_step by reflexivity.
    f_equal. destruct d; try reflexivity; apply c_str_digits.
Qed.

(** The text of the report, with the appends associated to the right. *)
Lemma report_text :
  forall (expression file : string) (line : Z) (message : string)
         (cerr : ostream),
    report (fst (construct expression file line message cerr))
    = String.append
        (if empty message then EmptyString
         else String.append message ": ")
        (String.append
           (if strcmp_is_0 expression "false" || strcmp_is_0 expression "0"
            then "Unreachable code assertion"%string
            else String.append "Assertion '"
                   (String.append expression "'"))
           (String.append " failed in file '"
              (String.append file
                 (String.append "' line " (print_int line))))).
Proof.
  intros expression file line message cerr.
  unfold construct, put, print, string_Printable, int_Printable; cbn.
  destruct (empty message);
    destruct (strcmp_is_0 expression "false" || strcmp_is_0 expression "0");
    cbn; rewrite ?string_append_assoc; reflexivity.
Qed.

Lemma report_has_no_nul :
  forall (expression file : string) (line : Z) (message : string)
         (cerr : ostream),
    c_str expression = expression -> c_str file = file ->
    c_str message = message ->
    let e := fst (construct expression file line message cerr) in
    c_str (report e) = report e.
Proof.
  intros expression file line message cerr He Hf Hm. cbv zeta.
  rewrite report_text.
  destruct (empty message);
    destruct (strcmp_is_0 expression "false" || strcmp_is_0 expression "0");
    repeat (apply c_str_append);
    try reflexivity; try assumption; apply c_str_print_int.
Qed.

Lemma construct_stores_and_logs :
  forall (expression file : string) (line : Z) (message : string)
         (cerr : ostream),
    let (e, cerr') := construct expression file line message cerr in
    cerr' = String.append cerr (String.append (report e) endl) /\
    VGDAssert.expression e = expression /\
    VGDAssert.file e = file /\
    VGDAssert.line e = line /\
    VGDAssert.message e = message.
Proof.
  intros expression file line message cerr.
  unfold construct, logError, put, print, string_Printable; cbn.
  rewrite string_append_assoc. repeat split.
Qed.

(** X10: constructing the exception stores its four arguments unchanged
    and appends exactly one line to [std::cerr]: the report and a newline.
    What [what()] returns is always a prefix of that report, and is the
    whole report when the expression, the file and the message contain no
    NUL character. *)
Theorem constructor_logs_what_it_reports :
  forall (expression file : string) (line : Z) (message : string)
         (cerr : ostream),
    let e := fst (construct expression file line message cerr) in
    let cerr' := snd (construct expression file line message cerr) in
    cerr' = String.append cerr (String.append (report e) endl) /\
    (VGDAssert.expression e = expression /\ VGDAssert.file e = file /\
     VGDAssert.line e = line /\ VGDAssert.message e = message) /\
    String.prefix (what e) (report e) = true /\
    (c_str expression = expression -> c_str file = file ->
     c_str message = message -> what e = report e).
Proof.
  intros expression file line message cerr. cbv zeta.
  pose proof (construct_stores_and_logs expression file line message cerr)
    as Hc.
  pose proof (report_has_no_nul expression file line message cerr) as Hn.
  cbv zeta in Hn.
  destruct (construct expression file line message cerr) as [e cerr'].
  cbn [fst snd] in *. destruct Hc as (Hlog & Hfields).
  split; [ exact Hlog | ].
  split; [ exact Hfields | ].
  split; [ apply prefix_c_str | exact Hn ].
Qed.

Lemma to_int_not_nil :
  forall n : Z, Z.to_int n <> Decimal.Pos Decimal.Nil /\
                Z.to_int n <> Decimal.Neg Decimal.Nil.
Proof.
  intros [ | p | p ]; cbn; split; try discriminate;
    intros E; injection E as E;
    exact (DecimalPos.Unsigned.to_uint_nonnil p E).
Qed.

(** Distinct [int]s print differently. *)
Lemma print_int_injective :
  forall n m : Z, print_int n = print_int m -> n = m.
Proof.
  intros n m E. unfold print_int in E.
  destruct (to_int_not_nil n) as [Hn1 Hn2].
  destruct (to_int_not_nil m) as [Hm1 Hm2].
  apply DecimalZ.to_int_inj.
  pose proof (DecimalString.NilZero.isi _ Hn1 Hn2) as In.
  pose proof (DecimalString.NilZero.isi _ Hm1 Hm2) as Im.
  rewrite E in In. rewrite In in Im. injection Im as Im. exact Im.
Qed.

(** X11: the report begins with the message and a colon when there is a
    message, with the assertion's own text when there is none, and always
    ends with the file between quotes and the line in decimal. *)
Theorem report_begins_with_message_and_ends_with_position :
  forall (expression file : string) (line : Z) (message : string)
         (cerr : ostream),
    let e := fst (construct expression file line message cerr) in
    (empty message = false ->
     String.prefix (String.append message ": ") (report e) = true) /\
    (empty message = true ->
     String.prefix "Assertion '" (report e)
     || String.prefix "Unreachable code assertion" (report e) = true) /\
    (exists head : string,
        report e
        = String.append head
            (String.append " failed in file '"
               (String.append file
                  (String.append "' line " (print_int line))))).
Proof.
  intros expression file line message cerr. cbv zeta.
  rewrite report_text. split; [ | split ].
  - intros ->. apply prefix_append.
  - intros ->.
    change (String.append EmptyString ?x) with x.
    destruct (strcmp_is_0 expression "false" || strcmp_is_0 expression "0").
    + rewrite (prefix_append "Unreachable code assertion"). apply orb_true_r.
    + rewrite string_append_assoc.
      rewrite (prefix_append "Assertion '"). reflexivity.
  - rewrite <- string_append_assoc. eexists. reflexivity.
Qed.

(** X12: two exceptions constructed with the same expression, file and
    message have the same report only if they have the same line. *)
Theorem report_determines_line :
  forall (expression file : string) (line1 line2 : Z) (message : string)
         (cerr1 cerr2 : ostream),
    report (fst (construct expression file line1 message cerr1))
    = report (fst (construct expression file line2 message cerr2)) ->
    line1 = line2.
Proof.
  intros expression file line1 line2 message cerr1 cerr2.
  rewrite !report_text. intros E.
  do 5 apply string_append_cancel_l in E.
  apply print_int_injective. exact E.
Qed.

Lemma formatter_fold :
  forall (operands : list string) (f : StreamFormatter),
    StreamFormatter_to_string (fold_left StreamFormatter_shl operands f)
    = String.append (m_stream f) (String.concat EmptyString operands).
Proof.
  induction operands as [ | a operands IH ]; intros f.
  - cbn. symmetry. apply string_append_empty_r.
  - cbn [fold_left]. rewrite IH.
    unfold StreamFormatter_shl, put, print, string_Printable; cbn [m_stream].
    rewrite string_append_assoc. f_equal.
    destruct operands as [ | b operands ]; cbn.
    + apply string_append_empty_r.
    + reflexivity.
Qed.

(** X13: streaming any number of operands into a fresh [StreamFormatter]
    and converting it yields their texts joined in order with nothing in
    between. *)
Theorem formatter_concatenates_operands :
  forall operands : list string,
    StreamFormatter_to_string
      (fold_left StreamFormatter_shl operands StreamFormatter_new)
    = String.concat EmptyString operands.
Proof.
  intros operands. rewrite formatter_fold. reflexivity.
Qed.

(** X14: in a build without [NDEBUG], [vgd_assert] throws exactly when
    [EXPRESSION] evaluates to false.  When it holds, [MESSAGE] is not
    evaluated and nothing but what [EXPRESSION] wrote reaches [std::cerr];
    when it fails, the exception carries the stringified expression, the
    position and the joined operands of [MESSAGE], and its report is the
    last line written. *)
Theorem vgd_assert_debug_throws_iff_expression_fails :
  forall (EXPRESSION : M bool) (EXPRESSION_text FILE : string) (LINE : Z)
         (MESSAGE : M (list string)) (cerr : ostream),
    let run := vgd_assert false EXPRESSION EXPRESSION_text FILE LINE MESSAGE
                 cerr in
    (fst (EXPRESSION cerr) = true ->
     run = (Returned, snd (EXPRESSION cerr))) /\
    (fst (EXPRESSION cerr) = false ->
     exists e : AssertionFailureException,
       run = (Thrown e,
              String.append (snd (MESSAGE (snd (EXPRESSION cerr))))
                (String.append (report e) endl)) /\
       expression e = EXPRESSION_text /\
       file e = FILE /\
       line e = LINE /\
       message e
       = String.concat EmptyString
           (fst (MESSAGE (snd (EXPRESSION cerr))))).
Proof.
  intros EXPRESSION EXPRESSION_text FILE LINE MESSAGE cerr. cbv zeta.
  unfold vgd_assert.
  destruct (EXPRESSION cerr) as [holds cerr1]; cbn [fst snd].
  split; intros ->; cbn [negb].
  - reflexivity.
  - destruct (MESSAGE cerr1) as [operands cerr2]; cbn [fst snd].
    pose proof (construct_stores_and_logs EXPRESSION_text FILE LINE
                  (StreamFormatter_to_string
                     (fold_left StreamFormatter_shl operands
                        StreamFormatter_new)) cerr2) as Hc.
    destruct (construct _ _ _ _ cerr2) as [e cerr3].
    destruct Hc as (-> & He & Hf & Hl & Hm).
    exists e. rewrite Hm, formatter_fold. auto.
Qed.

(** X15: seen through how the statement ends and what is on [std::cerr],
    which is all that [M] records, a build with [NDEBUG] and a build
    without it behave alike at a [vgd_assert] exactly when [EXPRESSION]
    evaluates to true and writes nothing to [std::cerr]. *)
Theorem vgd_assert_release_differs_from_debug :
  forall (EXPRESSION : M bool) (EXPRESSION_text FILE : string) (LINE : Z)
         (MESSAGE : M (list string)) (cerr : ostream),
    vgd_assert true EXPRESSION EXPRESSION_text FILE LINE MESSAGE cerr
    = vgd_assert false EXPRESSION EXPRESSION_text FILE LINE MESSAGE cerr
    <-> EXPRESSION cerr = (true, cerr).
Proof.
  intros EXPRESSION EXPRESSION_text FILE LINE MESSAGE cerr.
  unfold vgd_assert.
  destruct (EXPRESSION cerr) as [[ | ] cerr1]; cbn [negb].
  - split; intros E; injection E as E; rewrite E; reflexivity.
  - destruct (MESSAGE cerr1) as [operands cerr2].
    destruct (construct _ _ _ _ cerr2) as [e cerr3].
    split; intros E; discriminate E.
Qed.

End VGDAssertFacts.

(** * Instances of the further conditional statements *)

(** Doubling (3, 4), (1, 2, 2) and (1, 1, 1, 1) leaves their [normalize]
    unchanged. *)
Lemma normalize_exact_ignores_positive_scale_witness :
  normalize2 (vmul2 (mkVector2 3%R 4%R) 2%R) = normalize2 (mkVector2 3%R 4%R) /\
  normalize3 (vmul3 (mkVector3 1%R 2%R 2%R) 2%R)
  = normalize3 (mkVector3 1%R 2%R 2%R) /\
  normalize4 (vmul4 (mkVector4 1%R 1%R 1%R 1%R) 2%R)
  = normalize4 (mkVector4 1%R 1%R 1%R 1%R).
Proof.
  destruct (normalize_exact_ignores_positive_scale 2%R Rlt_0_2)
    as (S2 & S3 & S4).
  split; [ | split ].
  - exact (S2 _ nonzero_3_4).
  - exact (S3 _ nonzero_1_2_2).
  - exact (S4 _ nonzero_1_1_1_1).
Defined.

Lemma normalize_exact_is_idempotent_witness :
  normalize2 (normalize2 (mkVector2 3%R 4%R)) = normalize2 (mkVector2 3%R 4%R) /\
  normalize3 (normalize3 (mkVector3 1%R 2%R 2%R))
  = normalize3 (mkVector3 1%R 2%R 2%R) /\
  normalize4 (normalize4 (mkVector4 1%R 1%R 1%R 1%R))
  = normalize4 (mkVector4 1%R 1%R 1%R 1%R).
Proof.
  destruct normalize_exact_is_idempotent as (I2 & I3 & I4).
  split; [ | split ].
  - exact (I2 _ nonzero_3_4).
  - exact (I3 _ nonzero_1_2_2).
  - exact (I4 _ nonzero_1_1_1_1).
Defined.

(** The vectors (0, -0), (0, 0, 0) and (-0, 0, -0, 0) normalize to NaNs. *)
Lemma normalize_of_zero_vector_at_double_witness :
  forallb is_nan
    (components2 (normalize2 (mkVector2 0%float (-0)%float))) = true /\
  forallb is_nan
    (components3 (normalize3 (mkVector3 0%float 0%float 0%float))) = true /\
  forallb is_nan
    (components4
       (normalize4 (mkVector4 (-0)%float 0%float (-0)%float 0%float)))
  = true.
Proof.
  destruct normalize_of_zero_vector_at_double as (N2 & N3 & N4).
  split; [ | split ].
  - exact (N2 (mkVector2 0%float (-0)%float) eq_refl).
  - exact (N3 (mkVector3 0%float 0%float 0%float) eq_refl).
  - exact (N4 (mkVector4 (-0)%float 0%float (-0)%float 0%float) eq_refl).
Defined.

(** Successor and predecessor on the integers undo each other on vectors. *)
Lemma fcall_composes_witness :
  VEC_FCALL2 Z.pred (VEC_FCALL2 Z.succ (mkVector2 1%Z 2%Z)) = mkVector2 1%Z 2%Z /\
  VEC_FCALL3 Z.pred (VEC_FCALL3 Z.succ (mkVector3 1%Z 2%Z 3%Z))
  = mkVector3 1%Z 2%Z 3%Z /\
  VEC_FCALL4 Z.pred (VEC_FCALL4 Z.succ (mkVector4 1%Z 2%Z 3%Z 4%Z))
  = mkVector4 1%Z 2%Z 3%Z 4%Z.
Proof.
  destruct (fcall_composes Z.succ Z.pred) as [_ Hinv].
  destruct (Hinv Z.pred_succ) as (R2 & R3 & R4).
  split; [ | split ].
  - exact (R2 _).
  - exact (R3 _).
  - exact (R4 _).
Defined.

(** At [double], with the scalar combinators of the spec, the clamp of
    (-1, 5) to [0, 3] is the [min] of the [max]. *)
Lemma clamp_is_min_of_max_witness :
  clamp2 (mkVector2 (-1)%float 5%float) 0%float 3%float
  = min2 (max2 (mkVector2 (-1)%float 5%float) (mkVector2 0%float 0%float))
         (mkVector2 3%float 3%float).
Proof.
  destruct (@clamp_is_min_of_max float float_Min float_Max float_Clamp
              (fun _ _ _ => eq_refl)) as (C2 & _ & _).
  exact (C2 _ _ _).
Defined.

(** With [Z.min] and [Z.max] for the scalar functions, the vector ones are
    symmetric. *)
Lemma min_and_max_inherit_symmetry_witness :
  @min2 Z Z.min (mkVector2 1%Z 5%Z) (mkVector2 4%Z 2%Z)
  = @min2 Z Z.min (mkVector2 4%Z 2%Z) (mkVector2 1%Z 5%Z) /\
  @max2 Z Z.max (mkVector2 1%Z 5%Z) (mkVector2 4%Z 2%Z)
  = @max2 Z Z.max (mkVector2 4%Z 2%Z) (mkVector2 1%Z 5%Z).
Proof.
  destruct (@min_and_max_inherit_symmetry Z Z.min Z.max Z.min_comm Z.max_comm)
    as [(Hmin & _ & _) (Hmax & _ & _)].
  split; [ exact (Hmin _ _) | exact (Hmax _ _) ].
Defined.

Module VGDAssertWitnesses.
Import VGDAssert VGDAssertFacts.
Local Open Scope string_scope.

(** A failed [x > 0] at line 42 of a.cpp with the message [bad x]. *)
Lemma constructor_logs_what_it_reports_witness :
  let e := fst (construct "x > 0" "a.cpp" 42 "bad x" "log:") in
  what e = "bad x: Assertion 'x > 0' failed in file 'a.cpp' line 42"%string /\
  what e = report e.
Proof.
  cbv zeta.
  destruct (constructor_logs_what_it_reports "x > 0" "a.cpp" 42 "bad x" "log:")
    as (_ & _ & _ & Hwhat).
  split; [ vm_compute; reflexivity | exact (Hwhat eq_refl eq_refl eq_refl) ].
Defined.

Lemma report_begins_with_message_and_ends_with_position_witness :
  String.prefix "bad x: "
    (report (fst (construct "x > 0" "a.cpp" 42 "bad x" "log:"))) = true /\
  String.prefix "Assertion '"
    (report (fst (construct "false" "a.cpp" 42 EmptyString "log:")))
  || String.prefix "Unreachable code assertion"
       (report (fst (construct "false" "a.cpp" 42 EmptyString "log:")))
  = true.
Proof.
  destruct (report_begins_with_message_and_ends_with_position
              "x > 0" "a.cpp" 42 "bad x" "log:") as (Hmsg & _ & _).
  destruct (report_begins_with_message_and_ends_with_position
              "false" "a.cpp" 42 EmptyString "log:") as (_ & Hnone & _).
  split; [ exact (Hmsg eq_refl) | exact (Hnone eq_refl) ].
Defined.

Lemma report_determines_line_witness : 42%Z = 42%Z.
Proof.
  exact (report_determines_line "x > 0" "a.cpp" 42 42 "bad x" "log:"
           EmptyString eq_refl).
Defined.

(** A failing assertion whose message has two operands. *)
Lemma vgd_assert_debug_throws_iff_expression_fails_witness :
  exists e : AssertionFailureException,
    vgd_assert false (fun cerr => (false, cerr)) "x > 0" "a.cpp" 42
      (fun cerr => (["x is "; "-1"]%string, cerr)) "log:"
    = (Thrown e, String.append "log:" (String.append (report e) endl)) /\
    expression e = "x > 0"%string /\
    file e = "a.cpp"%string /\
    line e = 42%Z /\
    message e = "x is -1"%string.
Proof.
  destruct (vgd_assert_debug_throws_iff_expression_fails
              (fun cerr => (false, cerr)) "x > 0" "a.cpp" 42
              (fun cerr => (["x is "; "-1"]%string, cerr)) "log:")
    as [_ Hfail].
  exact (Hfail eq_refl).
Defined.

End VGDAssertWitnesses.

(** ** Normalization in rounded arithmetic *)

Section StandardModel.
Open Scope R_scope.
Variable u : R.
Hypothesis u_small : 0 <= u <= / 16777216.

Lemma Rabs_le_bounds : forall x b : R, Rabs x <= b -> - b <= x <= b.
Proof.
  intros x b. unfold Rabs. destruct (Rcase_abs x); lra.
Qed.

Lemma lo_pos : 0 < 1 - u.
Proof. lra. Qed.

Lemma lo_le_1 : 1 - u <= 1.
Proof. lra. Qed.

Lemma hi_ge_1 : 1 <= / (1 - u).
Proof.
  rewrite <- Rinv_1 at 1. apply Rinv_le_contravar; lra.
Qed.

Lemma one_plus_u_le_hi : 1 + u <= / (1 - u).
Proof.
  apply Rmult_le_reg_r with (1 - u); [ lra | ].
  rewrite Rinv_l by lra. nra.
Qed.

Lemma lo_pow_pos : forall k : nat, 0 < (1 - u) ^ k.
Proof. intros k. apply pow_lt. lra. Qed.

Lemma hi_pow_pos : forall k : nat, 0 < (/ (1 - u)) ^ k.
Proof. intros k. apply pow_lt. apply Rinv_0_lt_compat. lra. Qed.

Lemma lo_hi_pow : forall k : nat, (1 - u) ^ k * (/ (1 - u)) ^ k = 1.
Proof.
  intros k. rewrite <- Rpow_mult_distr. rewrite Rinv_r by lra. apply pow1.
Qed.

Lemma near_nonneg :
  forall (k : nat) (A b : R), 0 <= A -> near u k A b -> 0 <= b.
Proof.
  intros k A b HA [Hl _]. pose proof (lo_pow_pos k). nra.
Qed.

Lemma near_start : forall A : R, near u 0 A A.
Proof. intros A. unfold near. cbn. lra. Qed.

Lemma near_step :
  forall (k : nat) (A b : R), 0 <= A -> near u k A b -> near u (S k) A b.
Proof.
  intros k A b HA [Hl Hh]. unfold near. cbn [pow].
  pose proof (lo_pow_pos k). pose proof (hi_pow_pos k).
  pose proof hi_ge_1.
  assert (0 <= A * (1 - u) ^ k) by (apply Rmult_le_pos; lra).
  assert (0 <= A * (/ (1 - u)) ^ k) by (apply Rmult_le_pos; lra).
  split; nra.
Qed.

Lemma near_round :
  forall (k : nat) (A a b : R),
    0 <= A -> near u k A a -> Rabs (b - a) <= u * Rabs a ->
    near u (S k) A b.
Proof.
  intros k A a b HA Hn Hr.
  pose proof (near_nonneg k A a HA Hn) as Ha.
  rewrite (Rabs_pos_eq a Ha) in Hr.
  apply Rabs_le_bounds in Hr. destruct Hn as [Hl Hh].
  unfold near. cbn [pow].
  pose proof (lo_pow_pos k). pose proof (hi_pow_pos k).
  pose proof one_plus_u_le_hi. pose proof lo_pos.
  split.
  - apply Rle_trans with (a * (1 - u)); [ | lra ].
    replace (A * ((1 - u) * (1 - u) ^ k)) with ((A * (1 - u) ^ k) * (1 - u))
      by ring.
    apply Rmult_le_compat_r; lra.
  - apply Rle_trans with (a * / (1 - u)).
    + apply Rle_trans with (a * (1 + u)); [ lra | ].
      apply Rmult_le_compat_l; assumption.
    + replace (A * (/ (1 - u) * (/ (1 - u)) ^ k))
        with ((A * (/ (1 - u)) ^ k) * / (1 - u)) by ring.
      apply Rmult_le_compat_r; [ | exact Hh ].
      pose proof hi_ge_1. lra.
Qed.

Lemma near_add :
  forall (k : nat) (A B a b : R),
    near u k A a -> near u k B b -> near u k (A + B) (a + b).
Proof.
  intros k A B a b [Hal Hah] [Hbl Hbh]. unfold near. split; lra.
Qed.

Lemma near_mul :
  forall (j k : nat) (A B a b : R),
    0 <= A -> 0 <= B -> near u j A a -> near u k B b ->
    near u (j + k) (A * B) (a * b).
Proof.
  intros j k A B a b HA HB Ha Hb.
  pose proof (near_nonneg j A a HA Ha) as Ha0.
  pose proof (near_nonneg k B b HB Hb) as Hb0.
  destruct Ha as [Hal Hah]. destruct Hb as [Hbl Hbh].
  pose proof (lo_pow_pos j). pose proof (lo_pow_pos k).
  pose proof (hi_pow_pos j). pose proof (hi_pow_pos k).
  unfold near. rewrite !pow_add. split.
  - replace (A * B * ((1 - u) ^ j * (1 - u) ^ k))
      with ((A * (1 - u) ^ j) * (B * (1 - u) ^ k)) by ring.
    apply Rmult_le_compat; nra.
  - replace (A * B * ((/ (1 - u)) ^ j * (/ (1 - u)) ^ k))
      with ((A * (/ (1 - u)) ^ j) * (B * (/ (1 - u)) ^ k)) by ring.
    apply Rmult_le_compat; nra.
Qed.

Lemma sqrt_scaled_square :
  forall A c : R, 0 <= A -> 0 <= c ->
    R_sqrt.sqrt (A * (c * c)) = R_sqrt.sqrt A * c.
Proof.
  intros A c HA Hc. rewrite sqrt_mult by nra.
  rewrite sqrt_square by exact Hc. reflexivity.
Qed.

Lemma near_sqrt :
  forall (k : nat) (A a : R),
    0 <= A -> near u (k + k) A a ->
    near u k (R_sqrt.sqrt A) (R_sqrt.sqrt a).
Proof.
  intros k A a HA [Hl Hh]. rewrite !pow_add in Hl, Hh.
  pose proof (lo_pow_pos k). pose proof (hi_pow_pos k).
  unfold near. split.
  - rewrite <- sqrt_scaled_square by lra. apply sqrt_le_1_alt. exact Hl.
  - rewrite <- sqrt_scaled_square by lra. apply sqrt_le_1_alt. exact Hh.
Qed.

Lemma near_div :
  forall (k : nat) (X W L : R),
    0 <= X -> 0 < W -> near u k W L -> near u k (X / W) (X / L).
Proof.
  intros k X W L HX HW [Hl Hh].
  pose proof (lo_pow_pos k) as Hlo. pose proof (hi_pow_pos k) as Hhi.
  pose proof (lo_hi_pow k) as Hlh.
  assert (HL : 0 < L) by nra.
  assert (E1 : (1 - u) ^ k = / (/ (1 - u)) ^ k).
  { apply Rmult_eq_reg_r with ((/ (1 - u)) ^ k); [ | lra ].
    rewrite Rinv_l by lra. exact Hlh. }
  assert (E2 : (/ (1 - u)) ^ k = / (1 - u) ^ k).
  { apply Rmult_eq_reg_l with ((1 - u) ^ k); [ | lra ].
    rewrite Rinv_r by lra. exact Hlh. }
  unfold near, Rdiv. split.
  - rewrite E1. rewrite Rmult_assoc, <- Rinv_mult.
    apply Rmult_le_compat_l; [ exact HX | ].
    apply Rinv_le_contravar; [ exact HL | exact Hh ].
  - rewrite E2. rewrite Rmult_assoc, <- Rinv_mult.
    apply Rmult_le_compat_l; [ exact HX | ].
    apply Rinv_le_contravar; [ nra | exact Hl ].
Qed.

Lemma near_final :
  forall r : R, near u 7 1 r -> Rabs (r - 1) <= / 1000000.
Proof.
  intros r [Hl Hh]. rewrite !Rmult_1_l in *.
  assert (Hlo : (1 - / 16777216) ^ 7 <= (1 - u) ^ 7)
    by (apply pow_incr; lra).
  assert (Hc : 0 < (1 - / 16777216) ^ 7) by lra.
  assert (Hhi : (/ (1 - u)) ^ 7 <= / (1 - / 16777216) ^ 7).
  { rewrite pow_inv. apply Rinv_le_contravar; assumption. }
  assert (Hnum : / (1 - / 16777216) ^ 7 <= 1 + / 1000000).
  { apply Rmult_le_reg_r with ((1 - / 16777216) ^ 7); [ exact Hc | ].
    rewrite Rinv_l by lra. lra. }
  apply Rabs_le. lra.
Qed.

Variables fadd fmul fdiv : R -> R -> R.
Variable fsqrt : R -> R.
Hypothesis model : standard_model u fadd fmul fdiv fsqrt.

Lemma abs_square : forall x : R, Rabs x * Rabs x = x * x.
Proof.
  intros x. rewrite <- Rabs_mult. apply Rabs_pos_eq. nra.
Qed.

Lemma square_near : forall x : R, near u 1 (x * x) (fmul x x).
Proof.
  intros x. destruct model as (_ & Hmul & _ & _).
  apply (near_round 0 (x * x) (x * x)); [ nra | apply near_start | ].
  apply Hmul.
Qed.

Lemma add_near :
  forall (k : nat) (A B a b : R),
    0 <= A -> 0 <= B -> near u k A a -> near u k B b ->
    near u (S k) (A + B) (fadd a b).
Proof.
  intros k A B a b HA HB Ha Hb. destruct model as (Hadd & _ & _ & _).
  apply (near_round k (A + B) (a + b)); [ lra | | apply Hadd ].
  apply near_add; assumption.
Qed.

Lemma sqrt_near :
  forall (k : nat) (A a : R),
    0 <= A -> near u (k + k) A a ->
    near u (S k) (R_sqrt.sqrt A) (fsqrt a).
Proof.
  intros k A a HA Ha. destruct model as (_ & _ & _ & Hsqrt).
  pose proof (near_nonneg (k + k) A a HA Ha) as Ha0.
  apply (near_round k (R_sqrt.sqrt A) (R_sqrt.sqrt a)).
  - apply sqrt_pos.
  - apply near_sqrt; assumption.
  - rewrite (Rabs_pos_eq (R_sqrt.sqrt a)) by apply sqrt_pos.
    apply Hsqrt. exact Ha0.
Qed.

Lemma component_near :
  forall (k : nat) (x W L : R),
    0 < W -> near u k W L ->
    near u (S (S k + S k)) (x * x / (W * W))
      (fmul (fdiv x L) (fdiv x L)).
Proof.
  intros k x W L HW HL. destruct model as (_ & Hmul & Hdiv & _).
  assert (HL0 : 0 < L).
  { destruct HL as [Hl _]. pose proof (lo_pow_pos k). nra. }
  assert (Ha : Rabs (x / L) = Rabs x / L).
  { unfold Rdiv. rewrite Rabs_mult, Rabs_inv, (Rabs_pos_eq L) by lra.
    reflexivity. }
  assert (Hn : near u (S k) (Rabs x / W) (Rabs (fdiv x L))).
  { apply (near_round k (Rabs x / W) (Rabs x / L)).
    - apply Rmult_le_pos; [ apply Rabs_pos | ].
      apply Rlt_le, Rinv_0_lt_compat; exact HW.
    - apply near_div; [ apply Rabs_pos | exact HW | exact HL ].
    - rewrite <- Ha.
      apply Rle_trans with (Rabs (fdiv x L - x / L)).
      + apply Rabs_triang_inv2.
      + rewrite Rabs_Rabsolu. apply Hdiv. lra. }
  assert (HAW : 0 <= Rabs x / W).
  { apply Rmult_le_pos; [ apply Rabs_pos | ].
    apply Rlt_le, Rinv_0_lt_compat; exact HW. }
  pose proof (near_mul (S k) (S k) _ _ _ _ HAW HAW Hn Hn) as Hsq.
  rewrite abs_square in Hsq.
  replace (Rabs x / W * (Rabs x / W)) with (x * x / (W * W)) in Hsq
    by (rewrite <- (abs_square x); field; lra).
  assert (HX : 0 <= x * x / (W * W)).
  { apply Rmult_le_pos; [ nra | ].
    apply Rlt_le, Rinv_0_lt_compat. nra. }
  apply (near_round _ _ _ _ HX Hsq). apply Hmul.
Qed.

Lemma ratio_nonneg : forall x W : R, 0 < W -> 0 <= x * x / (W * W).
Proof.
  intros x W HW. apply Rmult_le_pos; [ nra | ].
  apply Rlt_le, Rinv_0_lt_compat. nra.
Qed.

Lemma rounded_normalize2_length :
  forall v : Vector2 R,
    v <> mkVector2 0 0 ->
    Rabs (@length2 R (rounding_Scalar fadd fmul fdiv) fsqrt
            (@normalize2 R (rounding_Scalar fadd fmul fdiv) fsqrt v) - 1)
    <= / 1000000.
Proof.
  intros v Hv. pose proof (lengthSquared2_pos v Hv) as Hs.
  destruct v as [x y]. unfold lengthSquared2 in Hs; cbn in Hs.
  set (s := x * x + y * y) in *.
  set (W := R_sqrt.sqrt s).
  assert (HW : 0 < W) by (apply sqrt_lt_R0; exact Hs).
  assert (HWW : W * W = s) by (apply sqrt_sqrt; lra).
  unfold normalize2, vdiv2. cbn [x2 y2].
  set (L := @length2 R (rounding_Scalar fadd fmul fdiv) fsqrt
              (mkVector2 x y)).
  assert (HL : near u 2 W L).
  { unfold L, length2; cbn. apply (sqrt_near 1); [ unfold s; nra | ].
    apply (add_near 1); try apply square_near; nra. }
  unfold length2; cbn.
  pose proof (component_near 2 x W L HW HL) as C1.
  pose proof (component_near 2 y W L HW HL) as C2.
  pose proof (add_near _ _ _ _ _ (ratio_nonneg x W HW) (ratio_nonneg y W HW)
                C1 C2) as T.
  replace (x * x / (W * W) + y * y / (W * W)) with 1 in T
    by (rewrite HWW; unfold s; field; unfold s in Hs; lra).
  pose proof (sqrt_near 4 _ _ Rle_0_1 T) as F.
  rewrite sqrt_1 in F.
  apply near_final. do 2 (apply near_step; [ lra | ]). exact F.
Qed.

Lemma rounded_normalize3_length :
  forall v : Vector3 R,
    v <> mkVector3 0 0 0 ->
    Rabs (@length3 R (rounding_Scalar fadd fmul fdiv) fsqrt
            (@normalize3 R (rounding_Scalar fadd fmul fdiv) fsqrt v) - 1)
    <= / 1000000.
Proof.
  intros v Hv. pose proof (lengthSquared3_pos v Hv) as Hs.
  destruct v as [x y z]. unfold lengthSquared3 in Hs; cbn in Hs.
  set (s := x * x + y * y + z * z) in *.
  set (W := R_sqrt.sqrt s).
  assert (HW : 0 < W) by (apply sqrt_lt_R0; exact Hs).
  assert (HWW : W * W = s) by (apply sqrt_sqrt; lra).
  unfold normalize3, vdiv3. cbn [x3 y3 z3].
  set (L := @length3 R (rounding_Scalar fadd fmul fdiv) fsqrt
              (mkVector3 x y z)).
  assert (HL : near u 3 W L).
  { unfold L, length3; cbn. apply (sqrt_near 2); [ unfold s; nra | ].
    apply near_step; [ unfold s; nra | ].
    apply (add_near 2); [ nra | nra | | ].
    - apply (add_near 1); try apply square_near; nra.
    - apply near_step; [ nra | apply square_near ]. }
  unfold length3; cbn.
  pose proof (ratio_nonneg x W HW) as Px.
  pose proof (ratio_nonneg y W HW) as Py.
  pose proof (ratio_nonneg z W HW) as Pz.
  pose proof (component_near 3 x W L HW HL) as C1.
  pose proof (component_near 3 y W L HW HL) as C2.
  pose proof (component_near 3 z W L HW HL) as C3.
  pose proof (add_near _ _ _ _ _ Px Py C1 C2) as T2.
  apply near_step in C3; [ | exact Pz ].
  assert (Pxy : 0 <= x * x / (W * W) + y * y / (W * W)) by lra.
  pose proof (add_near _ _ _ _ _ Pxy Pz T2 C3) as T3.
  apply near_step in T3; [ | lra ].
  replace (x * x / (W * W) + y * y / (W * W) + z * z / (W * W)) with 1
    in T3 by (rewrite HWW; unfold s; field; unfold s in Hs; lra).
  pose proof (sqrt_near 6 _ _ Rle_0_1 T3) as F.
  rewrite sqrt_1 in F.
  apply near_final. exact F.
Qed.

Lemma rounded_normalize4_length :
  forall v : Vector4 R,
    v <> mkVector4 0 0 0 0 ->
    Rabs (@length4 R (rounding_Scalar fadd fmul fdiv) fsqrt
            (@normalize4 R (rounding_Scalar fadd fmul fdiv) fsqrt v) - 1)
    <= / 1000000.
Proof.
  intros v Hv. pose proof (lengthSquared4_pos v Hv) as Hs.
  destruct v as [x y z w]. unfold lengthSquared4 in Hs; cbn in Hs.
  set (s := x * x + y * y + z * z + w * w) in *.
  set (W := R_sqrt.sqrt s).
  assert (HW : 0 < W) by (apply sqrt_lt_R0; exact Hs).
  assert (HWW : W * W = s) by (apply sqrt_sqrt; lra).
  unfold normalize4, vdiv4. cbn [x4 y4 z4 w4].
  set (L := @length4 R (rounding_Scalar fadd fmul fdiv) fsqrt
              (mkVector4 x y z w)).
  assert (HL : near u 3 W L).
  { unfold L, length4; cbn. apply (sqrt_near 2); [ unfold s; nra | ].
    apply (add_near 3); [ nra | nra | | ].
    - apply (add_near 2); [ nra | nra | | ].
      + apply (add_near 1); try apply square_near; nra.
      + apply near_step; [ nra | apply square_near ].
    - do 2 (apply near_step; [ nra | ]). apply square_near. }
  unfold length4; cbn.
  pose proof (ratio_nonneg x W HW) as Px.
  pose proof (ratio_nonneg y W HW) as Py.
  pose proof (ratio_nonneg z W HW) as Pz.
  pose proof (ratio_nonneg w W HW) as Pw.
  pose proof (component_near 3 x W L HW HL) as C1.
  pose proof (component_near 3 y W L HW HL) as C2.
  pose proof (component_near 3 z W L HW HL) as C3.
  pose proof (component_near 3 w W L HW HL) as C4.
  pose proof (add_near _ _ _ _ _ Px Py C1 C2) as T2.
  apply near_step in C3; [ | exact Pz ].
  assert (Pxy : 0 <= x * x / (W * W) + y * y / (W * W)) by lra.
  pose proof (add_near _ _ _ _ _ Pxy Pz T2 C3) as T3.
  do 2 (apply near_step in C4; [ | exact Pw ]).
  assert (Pxyz : 0 <= x * x / (W * W) + y * y / (W * W) + z * z / (W * W))
    by lra.
  pose proof (add_near _ _ _ _ _ Pxyz Pw T3 C4) as T4.
  replace (x * x / (W * W) + y * y / (W * W) + z * z / (W * W)
           + w * w / (W * W)) with 1
    in T4 by (rewrite HWW; unfold s; field; unfold s in Hs; lra).
  pose proof (sqrt_near 6 _ _ Rle_0_1 T4) as F.
  rewrite sqrt_1 in F.
  apply near_final. exact F.
Qed.

End StandardModel.

Lemma biased_operations_follow_the_model :
  forall u : R,
    (0 <= u)%R ->
    standard_model u (biased_add u) (biased_mul u) (biased_div u)
      (biased_sqrt u).
Proof.
  intros u Hu. unfold standard_model, biased_add, biased_mul, biased_div,
    biased_sqrt.
  repeat split.
  - intros a b.
    replace ((a + b) * (1 + u) - (a + b))%R with (u * (a + b))%R by ring.
    rewrite Rabs_mult, (Rabs_pos_eq u Hu). apply Rle_refl.
  - intros a b.
    replace (a * b * (1 + u) - a * b)%R with (u * (a * b))%R by ring.
    rewrite Rabs_mult, (Rabs_pos_eq u Hu). apply Rle_refl.
  - intros a b _.
    replace (a / b * (1 - u) - a / b)%R with (- u * (a / b))%R by ring.
    rewrite Rabs_mult, Rabs_Ropp, (Rabs_pos_eq u Hu). apply Rle_refl.
  - intros a Ha.
    replace (R_sqrt.sqrt a * (1 + u) - R_sqrt.sqrt a)%R
      with (u * R_sqrt.sqrt a)%R by ring.
    rewrite Rabs_mult, (Rabs_pos_eq u Hu),
      (Rabs_pos_eq (R_sqrt.sqrt a)) by apply sqrt_pos.
    apply Rle_refl.
Qed.

(** C5: over the reals the default [normalize] of a vector that is not the
    zero vector has length exactly 1; in any arithmetic on the reals whose
    additions, multiplications, divisions and square roots each err by a
    relative error of at most [u <= 2^-24] (the standard model of
    floating-point arithmetic), its length is within 1e-6 of 1; at
    [double] the bound does not hold for every such vector: the normalized
    (2^600, 0) has length 0 and the normalized (2^-600, 0) has a NaN for
    length. *)
Theorem normalize_has_unit_length_within_tolerance :
  ((forall v : Vector2 R,
       v <> mkVector2 0%R 0%R -> length2 (normalize2 v) = 1%R) /\
   (forall v : Vector3 R,
       v <> mkVector3 0%R 0%R 0%R -> length3 (normalize3 v) = 1%R) /\
   (forall v : Vector4 R,
       v <> mkVector4 0%R 0%R 0%R 0%R -> length4 (normalize4 v) = 1%R)) /\
  (forall (u : R) (fadd fmul fdiv : R -> R -> R) (fsqrt : R -> R),
      (0 <= u <= / 16777216)%R ->
      standard_model u fadd fmul fdiv fsqrt ->
      (forall v : Vector2 R,
          v <> mkVector2 0%R 0%R ->
          (Rabs (@length2 R (rounding_Scalar fadd fmul fdiv) fsqrt
                   (@normalize2 R (rounding_Scalar fadd fmul fdiv) fsqrt v)
                 - 1) <= / 1000000)%R) /\
      (forall v : Vector3 R,
          v <> mkVector3 0%R 0%R 0%R ->
          (Rabs (@length3 R (rounding_Scalar fadd fmul fdiv) fsqrt
                   (@normalize3 R (rounding_Scalar fadd fmul fdiv) fsqrt v)
                 - 1) <= / 1000000)%R) /\
      (forall v : Vector4 R,
          v <> mkVector4 0%R 0%R 0%R 0%R ->
          (Rabs (@length4 R (rounding_Scalar fadd fmul fdiv) fsqrt
                   (@normalize4 R (rounding_Scalar fadd fmul fdiv) fsqrt v)
                 - 1) <= / 1000000)%R)) /\
  (length2 (normalize2 (mkVector2 0x1p+600%float 0%float)) = 0%float /\
   is_nan (length2 (normalize2 (mkVector2 0x1p-600%float 0%float))) = true).
Proof.
  split; [ | split ].
  - split; [ | split ].
    + exact length2_of_normalize2.
    + exact length3_of_normalize3.
    + exact length4_of_normalize4.
  - intros u fadd fmul fdiv fsqrt Hu Hmodel. split; [ | split ].
    + exact (rounded_normalize2_length u Hu fadd fmul fdiv fsqrt Hmodel).
    + exact (rounded_normalize3_length u Hu fadd fmul fdiv fsqrt Hmodel).
    + exact (rounded_normalize4_length u Hu fadd fmul fdiv fsqrt Hmodel).
  - split; vm_compute; reflexivity.
Qed.

Lemma unit_roundoff_in_range :
  (0 <= / 16777216 <= / 16777216)%R.
Proof.
  lra.
Qed.

(** With every operation off by the whole 2^-24, the normalized (3, 4),
    (1, 2, 2) and (1, 1, 1, 1) have length within 1e-6 of 1, and exactly 1
    over the reals. *)
Lemma normalize_has_unit_length_within_tolerance_witness :
  let u := (/ 16777216)%R in
  let S := rounding_Scalar (biased_add u) (biased_mul u) (biased_div u) in
  let Q : Sqrt R := biased_sqrt u in
  @length2 R R_Scalar R_Sqrt (@normalize2 R R_Scalar R_Sqrt (mkVector2 3%R 4%R))
  = 1%R /\
  (Rabs (@length2 R S Q (@normalize2 R S Q (mkVector2 3%R 4%R)) - 1)
   <= / 1000000)%R /\
  (Rabs (@length3 R S Q (@normalize3 R S Q (mkVector3 1%R 2%R 2%R)) - 1)
   <= / 1000000)%R /\
  (Rabs (@length4 R S Q (@normalize4 R S Q (mkVector4 1%R 1%R 1%R 1%R)) - 1)
   <= / 1000000)%R.
Proof.
  cbv zeta.
  destruct normalize_has_unit_length_within_tolerance
    as [(E2 & _ & _) [Hmodel _]].
  destruct (Hmodel (/ 16777216)%R _ _ _ _ unit_roundoff_in_range
              (biased_operations_follow_the_model _
                 (proj1 unit_roundoff_in_range)))
    as (M2 & M3 & M4).
  split; [ exact (E2 _ nonzero_3_4) | ].
  split; [ exact (M2 _ nonzero_3_4) | ].
  split; [ exact (M3 _ nonzero_1_2_2) | exact (M4 _ nonzero_1_1_1_1) ].
Defined.
